(** * Workflow Doctor: the deterministic health score

    A shallow embedding of the health-score calculation performed by
    [handleAnalyze] in [src/WorkflowDoctor.tsx] (lines 68-97), with the
    JavaScript string primitives it relies on, and the properties that
    the specification states about it.

    Modelling conventions
    - A JavaScript string is a [string], read as its UTF-8 bytes.  The
      substring tests and the regular expression only look for ASCII
      text, for which searching the bytes and searching the code units
      agree.  [Js.toLowerCase] lowers the letters [A-Z] and leaves every
      other character unchanged: it is the lowering function on ASCII
      text, and is used to evaluate the calculation on ASCII examples.
      The properties that must hold on every type, non-ASCII letters
      included, are stated for an arbitrary lowering function (section
      [AnyLowering]).
    - A JavaScript number is a [Z]: every number the calculation forms is
      an integer of magnitude below 2^34 (array lengths are below 2^32),
      where double arithmetic is exact.
    - Control flow that can throw is written in a small completion monad
      ([Normal] / [Throw]). *)

From Stdlib Require Import ZArith List String Ascii Bool Lia Permutation.
Import ListNotations.
Local Open Scope string_scope.
Local Open Scope Z_scope.

(* ===================================================================== *)
(** ** JavaScript string primitives                                       *)
(* ===================================================================== *)

Module Js.

(** [String.prototype.toLowerCase], on one code unit. *)
Definition lowerChar (c : ascii) : ascii :=
  let n := nat_of_ascii c in
  if (Nat.leb 65 n && Nat.leb n 90)%bool then ascii_of_nat (n + 32) else c.

(** [s.toLowerCase()] *)
Fixpoint toLowerCase (s : string) : string :=
  match s with
  | EmptyString => EmptyString
  | String c r => String (lowerChar c) (toLowerCase r)
  end.

(** [s.startsWith(p)]: [p] is read off the front of [s]. *)
Fixpoint startsWith (s p : string) {struct p} : bool :=
  match p with
  | EmptyString => true
  | String a p' =>
      match s with
      | EmptyString => false
      | String b s' => (Ascii.eqb a b && startsWith s' p')%bool
      end
  end.

(** [s.includes(sub)]: [sub] occurs at some position of [s]. *)
Fixpoint includes (s sub : string) : bool :=
  if startsWith s sub then true
  else match s with
       | EmptyString => false
       | String _ r => includes r sub
       end.

(** The character class [\d] of a regular expression without the
    unicode flag: the ten digits [0-9]. *)
Definition isDigit (c : ascii) : bool :=
  let n := nat_of_ascii c in (Nat.leb 48 n && Nat.leb n 57)%bool.

(** The longest run of [\d] at the front of [s] (the greedy [\d+]),
    as the text it consumes. *)
Fixpoint digitRun (s : string) : string :=
  match s with
  | EmptyString => EmptyString
  | String c r => if isDigit c then String c (digitRun r) else EmptyString
  end.

(** Drop the first [n] code units. *)
Fixpoint drop (n : nat) (s : string) : string :=
  match n, s with
  | O, _ => s
  | S _, EmptyString => EmptyString
  | S m, String _ r => drop m r
  end.

(** The regular expression [/Node \d+/] tried at the start of [s]:
    the literal [Node ] (with its space), then one or more digits.
    Gives the matched text. *)
Definition nodeDigitsAt (s : string) : option string :=
  if startsWith s "Node " then
    match digitRun (drop 5 s) with
    | EmptyString => None
    | ds => Some ("Node " ++ ds)
    end
  else None.

(** [s.match(/Node \d+/)]: the regular expression has no anchor and no
    [g] flag, so the leftmost position where it matches is found; the
    result is [null] ([None]) or the match array, of which element 0
    (the matched text) is kept. *)
Fixpoint matchNodeDigits (s : string) : option string :=
  match nodeDigitsAt s with
  | Some m => Some m
  | None =>
      match s with
      | EmptyString => None
      | String _ r => matchNodeDigits r
      end
  end.

(** Truthiness of the result of [match]: an array is truthy, [null] is
    falsy. *)
Definition truthy {A : Type} (r : option A) : bool :=
  match r with Some _ => true | None => false end.

End Js.

(* ===================================================================== *)
(** ** Data model: the interfaces [Node] and [Workflow]                   *)
(* ===================================================================== *)

(** A JSON value: what [unknown] ranges over in
    [connections: Record<string, unknown>]. *)
#[warnings="-register-all"]
Inductive JsValue : Type :=
| JNull
| JBool (b : bool)
| JNum (z : Z)
| JStr (s : string)
| JArr (items : list JsValue)
| JObj (fields : list (string * JsValue)).

Module Node.
Record t : Type := mk {
  name : string;
  type : string;
  position : Z * Z
}.
End Node.

Module Workflow.
Record t : Type := mk {
  name : string;
  nodes : list Node.t;
  connections : list (string * JsValue)
}.
End Workflow.

(** [a.length] *)
Definition len {A : Type} (a : list A) : Z := Z.of_nat (List.length a).

(* ===================================================================== *)
(** ** The health score calculation (lines 68-97)                         *)
(* ===================================================================== *)

(** [n => n.type.toLowerCase().includes("error") || n.type.includes("catch")] *)
Definition isErrorNode (n : Node.t) : bool :=
  Js.includes (Js.toLowerCase (Node.type n)) "error"
  || Js.includes (Node.type n) "catch".

(** [n => n.type.toLowerCase().includes("trigger")
          || n.type.toLowerCase().includes("webhook")] *)
Definition isTrigger (n : Node.t) : bool :=
  Js.includes (Js.toLowerCase (Node.type n)) "trigger"
  || Js.includes (Js.toLowerCase (Node.type n)) "webhook".

(** [n => n.type.includes("Code") || n.type.includes("Function")] *)
Definition isHeavy (n : Node.t) : bool :=
  Js.includes (Node.type n) "Code" || Js.includes (Node.type n) "Function".

(** [n => n.name.match(/Node \d+/)], as [filter] reads it. *)
Definition isDefaultNamed (n : Node.t) : bool :=
  Js.truthy (Js.matchNodeDigits (Node.name n)).

(** The value of the variable [score] when line 96 is reached. *)
Definition score (workflow : Workflow.t) : Z :=
  let score := 100 in
  let nodes := Workflow.nodes workflow in
  (* 1. Error Handling Check *)
  let hasErrorNodes := existsb isErrorNode nodes in
  let score := if negb hasErrorNodes && (len nodes >? 5) then score - 20 else score in
  (* 2. Loop Detection *)
  let score := if len nodes >? 10 then score - 5 else score in
  let score := if len nodes >? 20 then score - 10 else score in
  (* 3. Trigger Hygiene *)
  let triggers := filter isTrigger nodes in
  let score := if len triggers =? 0 then score - 10 else score in
  let score := if len triggers >? 2 then score - 5 else score in
  (* 4. Node Type Specifics *)
  let heavyNodes := filter isHeavy nodes in
  let score := if len heavyNodes >? 3 then score - 5 else score in
  (* 5. Naming Convention *)
  let defaultNamed := filter isDefaultNamed nodes in
  let score := if len defaultNamed >? 0 then score - len defaultNamed * 2 else score in
  score.

(** The argument of [setHealthScore]: [Math.max(0, Math.min(100, score))]. *)
Definition healthScoreOf (workflow : Workflow.t) : Z :=
  Z.max 0 (Z.min 100 (score workflow)).

(** Literal workflows for the examples. *)
Definition node (name type : string) : Node.t := Node.mk name type (0, 0).
Definition wf (nodes : list Node.t) : Workflow.t := Workflow.mk "wf" nodes [].

(* ===================================================================== *)
(** ** The document at run time                                           *)
(* ===================================================================== *)

(** The interfaces above are erased at run time: [workflow] holds whatever
    [res.json()] produced, and a property that a node of the document
    omits reads as [undefined].  Calling a method on [undefined] throws a
    [TypeError].  The documents considered have their [nodes] array. *)

Inductive JsError : Type :=
| TypeError
| Rejected (reason : string).

Inductive Completion (A : Type) : Type :=
| Normal (a : A)
| Throw (e : JsError).
Arguments Normal {A} a.
Arguments Throw {A} e.

Definition bind {A B : Type} (c : Completion A) (k : A -> Completion B) : Completion B :=
  match c with
  | Normal a => k a
  | Throw e => Throw e
  end.

Notation "x <- c ;; k" := (bind c (fun x => k))
  (at level 61, c at next level, right associativity).

Module Rt.

(** A node object of the document; [None] is an absent property. *)
Record node : Type := mkNode {
  name : option string;
  type : option string;
  position : option (Z * Z)
}.

Record workflow : Type := mkWorkflow {
  wname : option string;
  nodes : list node;
  connections : list (string * JsValue)
}.

(** [recv.m(...)] for a string method [m]: a [TypeError] when [recv] is
    [undefined]. *)
Definition call {A : Type} (recv : option string) (m : string -> A) : Completion A :=
  match recv with
  | Some s => Normal (m s)
  | None => Throw TypeError
  end.

(** [Array.prototype.some]: stops at the first element the callback
    accepts. *)
Fixpoint some {A : Type} (cb : A -> Completion bool) (a : list A) : Completion bool :=
  match a with
  | [] => Normal false
  | x :: r => b <- cb x ;; if (b : bool) then Normal true else some cb r
  end.

(** [Array.prototype.filter]: the callback runs on every element, in
    order. *)
Fixpoint filter {A : Type} (cb : A -> Completion bool) (a : list A) : Completion (list A) :=
  match a with
  | [] => Normal []
  | x :: r =>
      b <- cb x ;;
      keep <- filter cb r ;;
      Normal (if (b : bool) then x :: keep else keep)
  end.

(** [n.type.toLowerCase().includes("error") || n.type.includes("catch")];
    [||] evaluates its right operand only when the left one is false. *)
Definition isErrorNode (n : node) : Completion bool :=
  l <- call (type n) (fun t => Js.includes (Js.toLowerCase t) "error") ;;
  if (l : bool) then Normal true
  else call (type n) (fun t => Js.includes t "catch").

Definition isTrigger (n : node) : Completion bool :=
  l <- call (type n) (fun t => Js.includes (Js.toLowerCase t) "trigger") ;;
  if (l : bool) then Normal true
  else call (type n) (fun t => Js.includes (Js.toLowerCase t) "webhook").

Definition isHeavy (n : node) : Completion bool :=
  l <- call (type n) (fun t => Js.includes t "Code") ;;
  if (l : bool) then Normal true
  else call (type n) (fun t => Js.includes t "Function").

Definition isDefaultNamed (n : node) : Completion bool :=
  call (name n) (fun s => Js.truthy (Js.matchNodeDigits s)).

(** Lines 70-94 on the document as it is. *)
Definition score (wf : workflow) : Completion Z :=
  let score := 100 in
  let nodes := nodes wf in
  hasErrorNodes <- some isErrorNode nodes ;;
  let score := if negb hasErrorNodes && (len nodes >? 5) then score - 20 else score in
  let score := if len nodes >? 10 then score - 5 else score in
  let score := if len nodes >? 20 then score - 10 else score in
  triggers <- filter isTrigger nodes ;;
  let score := if len triggers =? 0 then score - 10 else score in
  let score := if len triggers >? 2 then score - 5 else score in
  heavyNodes <- filter isHeavy nodes ;;
  let score := if len heavyNodes >? 3 then score - 5 else score in
  defaultNamed <- filter isDefaultNamed nodes ;;
  let score := if len defaultNamed >? 0 then score - len defaultNamed * 2 else score in
  Normal score.

(** A document that respects the interfaces. *)
Definition ofNode (n : Node.t) : node :=
  mkNode (Some (Node.name n)) (Some (Node.type n)) (Some (Node.position n)).

Definition ofWorkflow (w : Workflow.t) : workflow :=
  mkWorkflow (Some (Workflow.name w)) (map ofNode (Workflow.nodes w))
             (Workflow.connections w).

End Rt.

(* ===================================================================== *)
(** ** The component state and [handleAnalyze]                            *)
(* ===================================================================== *)

Inductive Tab : Type := visual | json.

Record Analysis : Type := mkAnalysis { text : string; model : string }.

(** What [generateAIResponse] resolves to. *)
Record AIResponse : Type := mkAIResponse { res_text : string; res_model : option string }.

(** The [useState] cells of the component. *)
Record State : Type := mkState {
  activeTab : Tab;
  workflow : option Rt.workflow;
  loading : bool;
  analysis : option Analysis;
  healthScore : Z
}.

Definition setLoading (b : bool) (st : State) : State :=
  mkState (activeTab st) (workflow st) b (analysis st) (healthScore st).

Definition setAnalysis (a : option Analysis) (st : State) : State :=
  mkState (activeTab st) (workflow st) (loading st) a (healthScore st).

Definition setHealthScore (z : Z) (st : State) : State :=
  mkState (activeTab st) (workflow st) (loading st) (analysis st) z.

(** [v || d] on an optional string: [undefined] and the empty string are
    falsy. *)
Definition orElse (v : option string) (d : string) : string :=
  match v with
  | None => d
  | Some EmptyString => d
  | Some s => s
  end.

(** [handleAnalyze], lines 48-100.  The outcome of the awaited call to the
    external text generator is the parameter [ai].  The result is the
    state the component is left in and how the handler completed. *)
Definition handleAnalyze (ai : Completion AIResponse) (st : State)
  : State * Completion unit :=
  match workflow st with
  | None => (st, Normal tt)
  | Some wf =>
      let st := setLoading true st in
      let st := setAnalysis None st in
      match ai with
      | Throw e => (st, Throw e)
      | Normal res =>
          let st := setAnalysis
                      (Some (mkAnalysis (res_text res) (orElse (res_model res) "AI Model"))) st in
          match Rt.score wf with
          | Throw e => (st, Throw e)
          | Normal score =>
              let st := setHealthScore (Z.max 0 (Z.min 100 score)) st in
              let st := setLoading false st in
              (st, Normal tt)
          end
      end
  end.

(** The state after mounting, once a workflow has been loaded. *)
Definition loaded (w : Rt.workflow) : State :=
  mkState visual (Some w) false None 0.

(* ===================================================================== *)
(** ** The rules, one by one                                              *)
(* ===================================================================== *)

(** Each [if (...) score -= k] of the calculation is a rule.  [Finding]
    labels a rule that fired with the name the specification gives it and
    the (negative) number of points it contributes. *)
Record Finding : Type := mkFinding { rule : string; delta : Z }.

Definition when (c : bool) (f : Finding) : list Finding := if c then [f] else [].

(** The rules that fire on a workflow, in the order of the source. *)
Definition triggered (workflow : Workflow.t) : list Finding :=
  let nodes := Workflow.nodes workflow in
  let triggers := filter isTrigger nodes in
  let heavyNodes := filter isHeavy nodes in
  let defaultNamed := filter isDefaultNamed nodes in
  when (negb (existsb isErrorNode nodes) && (len nodes >? 5))
       (mkFinding "Missing error handling" (-20))
  ++ when (len nodes >? 10) (mkFinding "Moderate size penalty" (-5))
  ++ when (len nodes >? 20) (mkFinding "Large size penalty" (-10))
  ++ when (len triggers =? 0) (mkFinding "No trigger" (-10))
  ++ when (len triggers >? 2) (mkFinding "Too many triggers" (-5))
  ++ when (len heavyNodes >? 3) (mkFinding "Excess custom code" (-5))
  ++ when (len defaultNamed >? 0) (mkFinding "Default naming" (- (len defaultNamed * 2))).

Definition sumDeltas (fs : list Finding) : Z :=
  fold_right (fun f acc => delta f + acc) 0 fs.

(** [clamp x lo hi] *)
Definition clamp (x lo hi : Z) : Z := Z.max lo (Z.min hi x).

(** Points taken off by the six rules that do not look at names. *)
Definition errorPenalty (nodes : list Node.t) : Z :=
  if negb (existsb isErrorNode nodes) && (len nodes >? 5) then 20 else 0.

Definition sizePenalty (nodes : list Node.t) : Z :=
  (if len nodes >? 10 then 5 else 0) + (if len nodes >? 20 then 10 else 0).

Definition triggerPenalty (nodes : list Node.t) : Z :=
  (if len (filter isTrigger nodes) =? 0 then 10 else 0)
  + (if len (filter isTrigger nodes) >? 2 then 5 else 0).

Definition codePenalty (nodes : list Node.t) : Z :=
  if len (filter isHeavy nodes) >? 3 then 5 else 0.

Definition fixedPenalty (workflow : Workflow.t) : Z :=
  let nodes := Workflow.nodes workflow in
  errorPenalty nodes + sizePenalty nodes + triggerPenalty nodes + codePenalty nodes.

(** Number of nodes the naming rule counts. *)
Definition defaultCount (workflow : Workflow.t) : Z :=
  len (filter isDefaultNamed (Workflow.nodes workflow)).

(** The workflow with another node sequence, everything else unchanged. *)
Definition withNodes (workflow : Workflow.t) (nodes : list Node.t) : Workflow.t :=
  Workflow.mk (Workflow.name workflow) nodes (Workflow.connections workflow).

(* ===================================================================== *)
(** ** Notions used in the statements                                     *)
(* ===================================================================== *)

(** The calculation reads the [name] and [type] of each node and nothing
    else. *)
Definition key (n : Node.t) : string * string := (Node.name n, Node.type n).



(** A callback that can only complete normally or throw [TypeError]. *)
Definition onlyTypeError {A B : Type} (cb : A -> Completion B) : Prop :=
  forall x, cb x = Throw TypeError \/ exists b, cb x = Normal b.





(** The substitution the specification describes for a node that lacks a
    property: an absent [name] or [type] read as the empty string. *)
Definition orEmpty (v : option string) : string :=
  match v with Some s => s | None => "" end.

Definition substituteEmpty (n : Rt.node) : Node.t :=
  Node.mk (orEmpty (Rt.name n)) (orEmpty (Rt.type n))
          (match Rt.position n with Some p => p | None => (0, 0) end).

Definition substituted (d : Rt.workflow) : Workflow.t :=
  Workflow.mk (orEmpty (Rt.wname d)) (map substituteEmpty (Rt.nodes d)) (Rt.connections d).

(* ===================================================================== *)
(** ** Sample workflows                                                   *)
(* ===================================================================== *)

Definition sampleResponse : AIResponse := mkAIResponse "- Add error handling node." None.

(** Two workflows on which different rules fire, with the same score. *)
Definition noTriggerWorkflow : Workflow.t := wf [].

Definition defaultNamesWorkflow : Workflow.t :=
  wf [node "Node 1" "n8n-nodes-base.webhook"; node "Node 2" "n8n-nodes-base.set";
      node "Node 3" "n8n-nodes-base.set"; node "Node 4" "n8n-nodes-base.set";
      node "Node 5" "n8n-nodes-base.set"].

(** Six nodes with a webhook trigger; the last one is typed [Catch]. *)
Definition catchWorkflow : Workflow.t :=
  wf [node "Hook" "n8n-nodes-base.webhook"; node "Fetch" "n8n-nodes-base.httpRequest";
      node "Parse" "n8n-nodes-base.set"; node "Route" "n8n-nodes-base.if";
      node "Store" "n8n-nodes-base.postgres"; node "Recover" "n8n-nodes-base.Catch"].

(** A workflow on which no rule fires, and one whose deltas sum to
    [-145]. *)
Definition cleanWorkflow : Workflow.t :=
  wf [node "Hook" "n8n-nodes-base.webhook"; node "Reply" "n8n-nodes-base.respondToWebhook"].

Definition neglectedWorkflow : Workflow.t :=
  wf (repeat (node "Node 7" "n8n-nodes-base.set") 50).

(** Five nodes, no trigger, two of them code or function nodes. *)
Definition smallWorkflow : Workflow.t :=
  wf [node "Fetch" "n8n-nodes-base.httpRequest"; node "Tidy" "n8n-nodes-base.Code";
      node "Shape" "n8n-nodes-base.Function"; node "Store" "n8n-nodes-base.postgres";
      node "Notify" "n8n-nodes-base.slack"].

(** A document whose first node has no [name]. *)
Definition namelessDocument : Rt.workflow :=
  Rt.mkWorkflow (Some "wf")
    [Rt.mkNode None (Some "n8n-nodes-base.webhook") (Some (0, 0));
     Rt.mkNode (Some "Reply") (Some "n8n-nodes-base.respondToWebhook") (Some (200, 0))]
    [].

(** The same two nodes, wired and placed in one workflow, unwired and
    unplaced in the other. *)
Definition wiredWorkflow : Workflow.t :=
  Workflow.mk "Email classifier"
    [Node.mk "Hook" "n8n-nodes-base.webhook" (100, 200);
     Node.mk "Classify" "n8n-nodes-base.Code" (300, 200)]
    [("Hook", JObj [("main", JArr [JArr [JObj [("node", JStr "Classify"); ("index", JNum 0)]]])])].

Definition unwiredWorkflow : Workflow.t :=
  Workflow.mk "Untitled"
    [Node.mk "Hook" "n8n-nodes-base.webhook" (0, 0);
     Node.mk "Classify" "n8n-nodes-base.Code" (0, 0)]
    [].

(** Twenty-one nodes, no error handler, no trigger, four code nodes: all
    five compatible fixed rules fire. *)
Definition worstFixedWorkflow : Workflow.t :=
  wf (repeat (node "Transform" "n8n-nodes-base.Code") 4
      ++ repeat (node "Step" "n8n-nodes-base.set") 17)%list.

(* ===================================================================== *)
(** ** The rest of the component: the other handlers                      *)
(* ===================================================================== *)

Definition setWorkflow (w : option Rt.workflow) (st : State) : State :=
  mkState (activeTab st) w (loading st) (analysis st) (healthScore st).

Definition setActiveTab (t : Tab) (st : State) : State :=
  mkState t (workflow st) (loading st) (analysis st) (healthScore st).

(** The state of the [useState] initialisers (lines 34-38). *)
Definition initial : State := mkState visual None false None 0.

(** The address fetched on mount (line 43). *)
Definition mountUrl : string := "/demo-workflows/email-classifier.json".

(** The argument of [loadDemo]: ["email" | "lead"]. *)
Inductive DemoType : Type := email | lead.

(** [loadDemo], lines 102-109: the state after its three resets and the
    address it fetches.  The document arrives later, see [fetched]. *)
Definition loadDemo (type : DemoType) (st : State) : State * string :=
  let st := setLoading false st in
  let st := setAnalysis None st in
  let st := setHealthScore 0 st in
  (st, "/demo-workflows/"
       ++ (match type with email => "email-classifier" | lead => "lead-enrichment" end)
       ++ ".json").

(** [.then(data => setWorkflow(data))], lines 45 and 108. *)
Definition fetched (data : Rt.workflow) (st : State) : State :=
  setWorkflow (Some data) st.

(** [handleAnalyze] is asynchronous: it runs up to its [await] (lines
    49-64), and its continuation (lines 64-99) runs later, on the state of
    that moment, with the [workflow] it captured when it was started. *)
Definition handleAnalyzeBegin (st : State) : State * option Rt.workflow :=
  match workflow st with
  | None => (st, None)
  | Some wf =>
      let st := setLoading true st in
      let st := setAnalysis None st in
      (st, Some wf)
  end.

Definition handleAnalyzeResume (wf : Rt.workflow) (ai : Completion AIResponse) (st : State)
  : State * Completion unit :=
  match ai with
  | Throw e => (st, Throw e)
  | Normal res =>
      let st := setAnalysis
                  (Some (mkAnalysis (res_text res) (orElse (res_model res) "AI Model"))) st in
      match Rt.score wf with
      | Throw e => (st, Throw e)
      | Normal score =>
          let st := setHealthScore (Z.max 0 (Z.min 100 score)) st in
          let st := setLoading false st in
          (st, Normal tt)
      end
  end.

(** What can happen to the component, one event at a time. *)
Inductive Event : Type :=
| FetchResolved (data : Rt.workflow)
| TabClicked (t : Tab)
| LoadDemoClicked (type : DemoType)
| AnalyzeClicked
| AnalyzeResumed (wf : Rt.workflow) (ai : Completion AIResponse).

Definition step (st : State) (e : Event) : State :=
  match e with
  | FetchResolved data => fetched data st
  | TabClicked t => setActiveTab t st
  | LoadDemoClicked type => fst (loadDemo type st)
  | AnalyzeClicked => fst (handleAnalyzeBegin st)
  | AnalyzeResumed wf ai => fst (handleAnalyzeResume wf ai st)
  end.

Definition run (es : list Event) (st : State) : State := fold_left step es st.

(* ===================================================================== *)
(** ** The rest of the component: what is rendered                        *)
(* ===================================================================== *)

Inductive Color : Type := emerald | blue | slate | amber.

(** The badge of a node card (lines 201-204):
    [node.type.includes("trigger") || node.type.includes("webhook")] gives
    emerald, [node.type.includes("google") || node.type.includes("ai")]
    blue, anything else slate. *)
Definition badgeColor (type : string) : Color :=
  if Js.includes type "trigger" || Js.includes type "webhook" then emerald
  else if Js.includes type "google" || Js.includes type "ai" then blue
  else slate.

(** [s.split(sep)] for a separator of one character. *)
Fixpoint split (sep : ascii) (s : string) : list string :=
  match s with
  | EmptyString => [EmptyString]
  | String c r =>
      if Ascii.eqb c sep then EmptyString :: split sep r
      else match split sep r with
           | [] => [String c EmptyString]
           | seg :: segs => String c seg :: segs
           end
  end.

(** [a.pop()]: the last element, [undefined] on an empty array. *)
Fixpoint pop {A : Type} (a : list A) : option A :=
  match a with
  | [] => None
  | [x] => Some x
  | _ :: r => pop r
  end.

(** [node.type.split(".").pop()], line 210. *)
Definition typeLabel (type : string) : option string := pop (split "." type).

(** A node card: whether the connection line is drawn above it
    ([i > 0]), its badge, the name and the label it shows. *)
Record Card : Type := mkCard {
  connector : bool;
  badge : Color;
  title : option string;
  label : option string
}.

(** The callback of [workflow.nodes.map((node, i) => ...)], lines
    188-214.  Both uses of [node.type] call a string method on it. *)
Definition renderCard (i : nat) (n : Rt.node) : Completion Card :=
  color <- Rt.call (Rt.type n) badgeColor ;;
  shown <- Rt.call (Rt.type n) typeLabel ;;
  Normal (mkCard (Nat.ltb 0 i) color (Rt.name n) shown).

(** [a.map((x, i) => ...)] from index [i] on. *)
Fixpoint mapFrom {A B : Type} (i : nat) (cb : nat -> A -> Completion B) (a : list A)
  : Completion (list B) :=
  match a with
  | [] => Normal []
  | x :: r =>
      y <- cb i x ;;
      ys <- mapFrom (S i) cb r ;;
      Normal (y :: ys)
  end.

(** What the left panel shows (lines 178-236).  The raw view is kept as
    the document it prints. *)
Inductive View : Type :=
| VisualGraph (cards : list Card)
| RawJson (shown : Rt.workflow)
| Placeholder.

Definition renderMain (st : State) : Completion View :=
  match activeTab st, workflow st with
  | visual, Some wf =>
      cards <- mapFrom 0 renderCard (Rt.nodes wf) ;;
      Normal (VisualGraph cards)
  | json, Some wf => Normal (RawJson wf)
  | _, _ => Normal Placeholder
  end.

(** [disabled={loading || !workflow}], line 162. *)
Definition analyzeDisabled (st : State) : bool :=
  loading st || match workflow st with Some _ => false | None => true end.




(** [segs.join(sep)] *)
Fixpoint join (sep : string) (segs : list string) : string :=
  match segs with
  | [] => EmptyString
  | [x] => x
  | x :: r => x ++ sep ++ join sep r
  end.

(* ===================================================================== *)
(** ** The rest of the component: the prompt                              *)
(* ===================================================================== *)

(** The double quote, the backslash and the line feed. *)
Definition dq : ascii := "034"%char.
Definition bs : ascii := "092"%char.
Definition nl : string := String "010"%char "".

Definition hexDigit (n : nat) : ascii :=
  if Nat.ltb n 10 then ascii_of_nat (48 + n) else ascii_of_nat (87 + n).

(** How [JSON.stringify] writes one code unit of a string: the two-letter
    escapes, [\u00XX] for the other control characters, and the unit
    itself otherwise. *)
Definition quoteChar (c : ascii) : string :=
  let n := nat_of_ascii c in
  if Nat.eqb n 34 then String bs (String dq "")
  else if Nat.eqb n 92 then String bs (String bs "")
  else if Nat.eqb n 8 then String bs "b"
  else if Nat.eqb n 9 then String bs "t"
  else if Nat.eqb n 10 then String bs "n"
  else if Nat.eqb n 12 then String bs "f"
  else if Nat.eqb n 13 then String bs "r"
  else if Nat.ltb n 32 then
    String bs ("u00" ++ String (hexDigit (Nat.div n 16))
                                (String (hexDigit (Nat.modulo n 16)) ""))
  else String c "".

Fixpoint quoteBody (s : string) : string :=
  match s with
  | EmptyString => EmptyString
  | String c r => quoteChar c ++ quoteBody r
  end.

(** [JSON.stringify(s)] for a string [s]. *)
Definition quoteJSON (s : string) : string := String dq (quoteBody s ++ String dq "").

(** A property of an object literal as [JSON.stringify] writes it; a
    property whose value is [undefined] is left out. *)
Definition property (key : string) (v : option string) : list string :=
  match v with
  | Some s => [quoteJSON key ++ ":" ++ quoteJSON s]
  | None => []
  end.

(** [JSON.stringify({ name: n.name, type: n.type })] *)
Definition stringifyNode (n : Rt.node) : string :=
  "{" ++ join "," (property "name" (Rt.name n) ++ property "type" (Rt.type n))%list ++ "}".

(** [JSON.stringify(workflow.nodes.map(n => ({ name: n.name, type: n.type })))] *)
Definition stringifyNodes (a : list Rt.node) : string :=
  "[" ++ join "," (map stringifyNode a) ++ "]".

(** The text of the template after the interpolated part (lines 53-62). *)
Definition promptTail : string :=
  ". " ++ nl
  ++ "    Provide exactly 3 short bullet points (~10 words each) on improvements." ++ nl
  ++ "    CRITICAL: You MUST start every line with a hyphen (-)." ++ nl
  ++ "    " ++ nl
  ++ "    Example:" ++ nl
  ++ "    - Add error handling node." ++ nl
  ++ "    - Remove redundant webhooks." ++ nl
  ++ "    - Optimize HTTP request batching." ++ nl
  ++ "    " ++ nl
  ++ "    Your Output (Exactly 3 bullets):".

(** The first argument of [generateAIResponse] (line 53); the [ai] that
    [handleAnalyze] takes is the outcome of the call on it. *)
Definition prompt (wf : Rt.workflow) : string :=
  "Analyze this n8n workflow: " ++ stringifyNodes (Rt.nodes wf) ++ promptTail.

(** The second argument (line 64). *)
Definition systemInstruction : string :=
  "You are an expert n8n workflow engineer. Be concise.".

(** What the prompt is about: the [name] and the [type] of a node. *)
Definition fields (n : Rt.node) : option string * option string :=
  (Rt.name n, Rt.type n).

(** *** Reading the interpolated part back *)

Definition hexVal (c : ascii) : option nat :=
  let n := nat_of_ascii c in
  if (Nat.leb 48 n && Nat.leb n 57)%bool then Some (n - 48)%nat
  else if (Nat.leb 97 n && Nat.leb n 102)%bool then Some (n - 87)%nat
  else None.

Definition unescape (e : ascii) : ascii :=
  if Ascii.eqb e "b" then "008"
  else if Ascii.eqb e "t" then "009"
  else if Ascii.eqb e "n" then "010"
  else if Ascii.eqb e "f" then "012"
  else if Ascii.eqb e "r" then "013"
  else e.

Definition consTo (c : ascii) (r : option (string * string)) : option (string * string) :=
  match r with
  | Some (s, rest) => Some (String c s, rest)
  | None => None
  end.

(** Reads the body of a quoted string up to its closing quote; gives the
    string and what follows the quote. *)
Fixpoint unquoteBody (s : string) : option (string * string) :=
  match s with
  | EmptyString => None
  | String c r =>
      if Ascii.eqb c dq then Some (EmptyString, r)
      else if Ascii.eqb c bs then
        match r with
        | EmptyString => None
        | String e r1 =>
            if Ascii.eqb e "u" then
              match r1 with
              | String _ (String _ (String h1 (String h2 r2))) =>
                  match hexVal h1, hexVal h2 with
                  | Some a, Some b => consTo (ascii_of_nat (16 * a + b)) (unquoteBody r2)
                  | _, _ => None
                  end
              | _ => None
              end
            else consTo (unescape e) (unquoteBody r1)
        end
      else consTo c (unquoteBody r)
  end.

Definition parseString (s : string) : option (string * string) :=
  match s with
  | EmptyString => None
  | String c r => if Ascii.eqb c dq then unquoteBody r else None
  end.

(** [s] without the prefix [p], when it starts with [p]. *)
Definition expect (p s : string) : option string :=
  if Js.startsWith s p then Some (Js.drop (String.length p) s) else None.

(** Reads an object written by [stringifyNode], after its opening
    brace. *)
Definition parseNode (s : string) : option ((option string * option string) * string) :=
  match expect "}" s with
  | Some rest => Some ((None, None), rest)
  | None =>
      match expect (quoteJSON "name" ++ ":") s with
      | Some s1 =>
          match parseString s1 with
          | None => None
          | Some (nm, s2) =>
              match expect "}" s2 with
              | Some rest => Some ((Some nm, None), rest)
              | None =>
                  match expect ("," ++ quoteJSON "type" ++ ":") s2 with
                  | None => None
                  | Some s3 =>
                      match parseString s3 with
                      | None => None
                      | Some (ty, s4) =>
                          match expect "}" s4 with
                          | Some rest => Some ((Some nm, Some ty), rest)
                          | None => None
                          end
                      end
                  end
              end
          end
      | None =>
          match expect (quoteJSON "type" ++ ":") s with
          | None => None
          | Some s1 =>
              match parseString s1 with
              | None => None
              | Some (ty, s2) =>
                  match expect "}" s2 with
                  | Some rest => Some ((None, Some ty), rest)
                  | None => None
                  end
              end
          end
      end
  end.

(** Reads the elements of an array written by [stringifyNodes], from the
    first element on, at most [fuel] of them. *)
Fixpoint parseElems (fuel : nat) (s : string)
  : option (list (option string * option string) * string) :=
  match fuel with
  | O => None
  | S f =>
      match expect "{" s with
      | None => None
      | Some s1 =>
          match parseNode s1 with
          | None => None
          | Some (kv, s2) =>
              match expect "]" s2 with
              | Some rest => Some ([kv], rest)
              | None =>
                  match expect "," s2 with
                  | None => None
                  | Some s3 =>
                      match parseElems f s3 with
                      | Some (kvs, rest) => Some (kv :: kvs, rest)
                      | None => None
                      end
                  end
              end
          end
      end
  end.

Definition parseNodes (fuel : nat) (s : string)
  : option (list (option string * option string) * string) :=
  match expect "[" s with
  | None => None
  | Some s1 =>
      match expect "]" s1 with
      | Some rest => Some ([], rest)
      | None => parseElems fuel s1
      end
  end.

(** A document whose names try to pass for JSON. *)
Definition quotingDocument : Rt.workflow :=
  Rt.mkWorkflow None
    [Rt.mkNode (Some (String dq ("},{" ++ String dq ("name" ++ String dq ":"))))
               (Some (String bs ("n8n" ++ String "009"%char (String "001"%char "x")))) None;
     Rt.mkNode None (Some "n8n-nodes-base.set") None;
     Rt.mkNode (Some "Only a name") None None;
     Rt.mkNode None None None]
    [].

(** A document whose second node has no [type]. *)
Definition typelessDocument : Rt.workflow :=
  Rt.mkWorkflow None
    [Rt.mkNode (Some "Hook") (Some "n8n-nodes-base.webhook") None;
     Rt.mkNode (Some "Step") None None]
    [].

(* ===================================================================== *)
(** ** The calculation for any lowering function                          *)
(* ===================================================================== *)

(** [Js.toLowerCase] lowers the letters [A-Z] and nothing else, while
    [String.prototype.toLowerCase] also lowers letters outside ASCII, a
    few of them to ASCII letters (U+212A, the Kelvin sign, becomes [k]).
    The definitions of this section are lines 70-97 once more, with the
    lowering function left open: what is proved of them holds of the code
    whatever [toLowerCase] does outside ASCII.  [score] and
    [healthScoreOf] are their instances at [Js.toLowerCase]. *)
Section AnyLowering.

Variable toLowerCase : string -> string.

(** [n => n.type.toLowerCase().includes("error") || n.type.includes("catch")] *)
Definition isErrorNodeWith (n : Node.t) : bool :=
  Js.includes (toLowerCase (Node.type n)) "error"
  || Js.includes (Node.type n) "catch".

(** [n => n.type.toLowerCase().includes("trigger")
          || n.type.toLowerCase().includes("webhook")] *)
Definition isTriggerWith (n : Node.t) : bool :=
  Js.includes (toLowerCase (Node.type n)) "trigger"
  || Js.includes (toLowerCase (Node.type n)) "webhook".

(** The value of the variable [score] when line 96 is reached. *)
Definition scoreWith (workflow : Workflow.t) : Z :=
  let score := 100 in
  let nodes := Workflow.nodes workflow in
  let hasErrorNodes := existsb isErrorNodeWith nodes in
  let score := if negb hasErrorNodes && (len nodes >? 5) then score - 20 else score in
  let score := if len nodes >? 10 then score - 5 else score in
  let score := if len nodes >? 20 then score - 10 else score in
  let triggers := filter isTriggerWith nodes in
  let score := if len triggers =? 0 then score - 10 else score in
  let score := if len triggers >? 2 then score - 5 else score in
  let heavyNodes := filter isHeavy nodes in
  let score := if len heavyNodes >? 3 then score - 5 else score in
  let defaultNamed := filter isDefaultNamed nodes in
  let score := if len defaultNamed >? 0 then score - len defaultNamed * 2 else score in
  score.

(** [Math.max(0, Math.min(100, score))] *)
Definition healthScoreWith (workflow : Workflow.t) : Z :=
  Z.max 0 (Z.min 100 (scoreWith workflow)).

(** Points taken off by the rules that lower the type. *)
Definition errorPenaltyWith (nodes : list Node.t) : Z :=
  if negb (existsb isErrorNodeWith nodes) && (len nodes >? 5) then 20 else 0.

Definition triggerPenaltyWith (nodes : list Node.t) : Z :=
  (if len (filter isTriggerWith nodes) =? 0 then 10 else 0)
  + (if len (filter isTriggerWith nodes) >? 2 then 5 else 0).

Definition fixedPenaltyWith (workflow : Workflow.t) : Z :=
  let nodes := Workflow.nodes workflow in
  errorPenaltyWith nodes + sizePenalty nodes + triggerPenaltyWith nodes + codePenalty nodes.

End AnyLowering.

(** U+212A, the Kelvin sign, in UTF-8. *)
Definition kelvinSign : string :=
  String "226"%char (String "132"%char (String "170"%char "")).


(* ===================================================================== *)
(** * Properties                                                          *)
(* ===================================================================== *)

(* ===================================================================== *)
(** ** Worked examples                                                    *)
(* ===================================================================== *)

Example toLowerCase_ex : Js.toLowerCase "n8n-nodes-base.ErrorTrigger" = "n8n-nodes-base.errortrigger".
Proof. reflexivity. Qed.

Example includes_ex1 : Js.includes "n8n-nodes-base.webhook" "webhook" = true.
Proof. reflexivity. Qed.

Example includes_ex2 : Js.includes "n8n-nodes-base.Webhook" "webhook" = false.
Proof. reflexivity. Qed.

Example includes_empty : Js.includes "" "" = true.
Proof. reflexivity. Qed.

Example match_ex1 : Js.matchNodeDigits "MyNode 42 copy" = Some "Node 42".
Proof. reflexivity. Qed.

Example match_ex2 : Js.matchNodeDigits "Node1" = None.
Proof. reflexivity. Qed.

Example match_ex3 : Js.matchNodeDigits "node 3" = None.
Proof. reflexivity. Qed.

Example score_empty : healthScoreOf (wf []) = 90.
Proof. reflexivity. Qed.

(** Six nodes, no error handler, no trigger, one code node: 70. *)
Example score_six_nodes :
  healthScoreOf (wf [node "a" "n8n-nodes-base.set"; node "b" "n8n-nodes-base.if";
                     node "c" "n8n-nodes-base.Code"; node "d" "n8n-nodes-base.set";
                     node "e" "n8n-nodes-base.httpRequest"; node "f" "n8n-nodes-base.set"])
  = 70.
Proof. reflexivity. Qed.

(** Twenty-five nodes with an error handler, a webhook trigger and two
    default names: 81. *)
Example score_twenty_five :
  healthScoreOf (wf (node "h" "errorHandler" :: node "t" "webhookTrigger"
                     :: node "Node 1" "set" :: node "Node 12" "set"
                     :: repeat (node "x" "set") 21))
  = 81.
Proof. reflexivity. Qed.

(** Without a workflow the handler returns at once; when the external
    call is rejected no score is computed. *)
Example handleAnalyze_no_workflow :
  handleAnalyze (Normal sampleResponse) (mkState visual None false None 0)
  = (mkState visual None false None 0, Normal tt).
Proof. reflexivity. Qed.

Example handleAnalyze_rejected :
  handleAnalyze (Throw (Rejected "timeout")) (loaded (Rt.ofWorkflow cleanWorkflow))
  = (mkState visual (Some (Rt.ofWorkflow cleanWorkflow)) true None 0,
     Throw (Rejected "timeout")).
Proof. reflexivity. Qed.

Example handleAnalyze_empty :
  handleAnalyze (Normal (mkAIResponse "- ok" None)) (loaded (Rt.ofWorkflow (wf [])))
  = (mkState visual (Some (Rt.ofWorkflow (wf []))) false
             (Some (mkAnalysis "- ok" "AI Model")) 90, Normal tt).
Proof. reflexivity. Qed.

(* ===================================================================== *)
(** ** Facts about the string primitives                                  *)
(* ===================================================================== *)

Lemma startsWith_iff (s p : string) :
  Js.startsWith s p = true <-> exists r, s = p ++ r.
Proof.
  revert s. induction p as [|a p IH]; intros s; simpl.
  - split; [intros _; now exists s | reflexivity].
  - destruct s as [|b s].
    + split; [discriminate | intros [r Hr]; discriminate].
    + rewrite andb_true_iff, Ascii.eqb_eq, IH. split.
      * intros [-> [r ->]]. now exists r.
      * intros [r Hr]. injection Hr as -> ->. split; [reflexivity | now exists r].
Qed.

(** [includes] is the substring test. *)
Lemma includes_iff (s sub : string) :
  Js.includes s sub = true <-> exists pre post, s = pre ++ sub ++ post.
Proof.
  induction s as [|c s IH]; simpl.
  - destruct (Js.startsWith "" sub) eqn:E.
    + apply startsWith_iff in E. destruct E as [r Hr].
      split; [intros _; now exists "", r | reflexivity].
    + split; [discriminate |].
      intros [pre [post H]]. destruct pre; [|discriminate]. simpl in H.
      assert (Js.startsWith "" sub = true) by (apply startsWith_iff; now exists post).
      congruence.
  - destruct (Js.startsWith (String c s) sub) eqn:E.
    + apply startsWith_iff in E. destruct E as [r Hr].
      split; [intros _; now exists "", r | reflexivity].
    + rewrite IH. split.
      * intros [pre [post ->]]. now exists (String c pre), post.
      * intros [pre [post H]]. destruct pre as [|x pre].
        -- simpl in H.
           assert (Js.startsWith (String c s) sub = true)
             by (apply startsWith_iff; now exists post).
           congruence.
        -- simpl in H. injection H as _ ->. now exists pre, post.
Qed.




(* ===================================================================== *)
(** ** Facts about the calculation                                        *)
(* ===================================================================== *)

Lemma len_nonneg {A : Type} (a : list A) : 0 <= len a.
Proof. unfold len. lia. Qed.

Lemma len_cons {A : Type} (x : A) (a : list A) : len (x :: a) = len a + 1.
Proof. unfold len. cbn [List.length]. lia. Qed.

Lemma len_app {A : Type} (a b : list A) : len (a ++ b) = len a + len b.
Proof. unfold len. rewrite List.length_app. lia. Qed.

(** Turn the boolean comparisons met in a goal into linear facts. *)
Ltac zbool :=
  repeat match goal with
    | H : (_ >? _) = true |- _ => rewrite Z.gtb_ltb in H; apply Z.ltb_lt in H
    | H : (_ >? _) = false |- _ => rewrite Z.gtb_ltb in H; apply Z.ltb_ge in H
    | H : (_ =? _) = true |- _ => apply Z.eqb_eq in H
    | H : (_ =? _) = false |- _ => apply Z.eqb_neq in H
    end.

(** Split every conditional of the goal, remembering the test. *)
Ltac split_ifs :=
  repeat match goal with
    | |- context [if ?c then _ else _] => destruct c eqn:?
    end.

(** The accumulated [score] is the base 100 less the points of the six
    fixed rules and two points per default-named node. *)
Lemma score_split (w : Workflow.t) :
  score w = 100 - fixedPenalty w - 2 * defaultCount w.
Proof.
  unfold score, fixedPenalty, errorPenalty, sizePenalty, triggerPenalty,
    codePenalty, defaultCount.
  cbv zeta.
  pose proof (len_nonneg (filter isDefaultNamed (Workflow.nodes w))).
  split_ifs; zbool; lia.
Qed.

(** The accumulated [score] is the base 100 plus the deltas of the rules
    that fired. *)
Lemma score_sumDeltas (w : Workflow.t) :
  score w = 100 + sumDeltas (triggered w).
Proof.
  unfold score, triggered, when. cbv zeta.
  split_ifs; cbn [app sumDeltas fold_right delta]; lia.
Qed.

Lemma fixedPenalty_bounds (w : Workflow.t) : 0 <= fixedPenalty w <= 50.
Proof.
  unfold fixedPenalty, errorPenalty, sizePenalty, triggerPenalty, codePenalty.
  cbv zeta. split_ifs; zbool; lia.
Qed.

Lemma healthScoreOf_range (w : Workflow.t) : 0 <= healthScoreOf w <= 100.
Proof. unfold healthScoreOf. lia. Qed.

Lemma filter_none {A : Type} (p : A -> bool) (a : list A) :
  (forall x, In x a -> p x = false) -> filter p a = [].
Proof.
  induction a as [|x a IH]; intros H; simpl; [reflexivity |].
  rewrite (H x (or_introl eq_refl)). apply IH. intros y Hy. apply H. now right.
Qed.

(** A test that reads a node through [key] only gives the same answers on
    two node sequences with the same keys. *)
Section KeyInvariant.

Variable p : Node.t -> bool.
Hypothesis p_key : forall n m, key n = key m -> p n = p m.

Lemma existsb_key (a b : list Node.t) :
  map key a = map key b -> existsb p a = existsb p b.
Proof.
  revert b. induction a as [|x a IH]; intros [|y b] H; try discriminate.
  - reflexivity.
  - simpl in H. injection H as Hn Ht Hr.
    assert (Hk : key x = key y) by (unfold key; congruence).
    simpl. now rewrite (p_key x y Hk), (IH b Hr).
Qed.

Lemma len_filter_key (a b : list Node.t) :
  map key a = map key b -> len (filter p a) = len (filter p b).
Proof.
  revert b. induction a as [|x a IH]; intros [|y b] H; try discriminate.
  - reflexivity.
  - simpl in H. injection H as Hn Ht Hr.
    assert (Hk : key x = key y) by (unfold key; congruence).
    simpl. rewrite (p_key x y Hk).
    destruct (p y); rewrite ?len_cons; now rewrite (IH b Hr).
Qed.

End KeyInvariant.

Lemma len_key (a b : list Node.t) : map key a = map key b -> len a = len b.
Proof.
  intros H. unfold len. now rewrite <- (List.length_map key a), H, List.length_map.
Qed.

Lemma key_type (n m : Node.t) : key n = key m -> Node.type n = Node.type m.
Proof. unfold key. congruence. Qed.

Lemma key_name (n m : Node.t) : key n = key m -> Node.name n = Node.name m.
Proof. unfold key. congruence. Qed.

Lemma isErrorNode_key (n m : Node.t) : key n = key m -> isErrorNode n = isErrorNode m.
Proof. intros Hk. unfold isErrorNode. now rewrite (key_type _ _ Hk). Qed.

Lemma isTrigger_key (n m : Node.t) : key n = key m -> isTrigger n = isTrigger m.
Proof. intros Hk. unfold isTrigger. now rewrite (key_type _ _ Hk). Qed.

Lemma isHeavy_key (n m : Node.t) : key n = key m -> isHeavy n = isHeavy m.
Proof. intros Hk. unfold isHeavy. now rewrite (key_type _ _ Hk). Qed.

Lemma isDefaultNamed_key (n m : Node.t) :
  key n = key m -> isDefaultNamed n = isDefaultNamed m.
Proof. intros Hk. unfold isDefaultNamed. now rewrite (key_name _ _ Hk). Qed.

Lemma score_key (w1 w2 : Workflow.t) :
  map key (Workflow.nodes w1) = map key (Workflow.nodes w2) -> score w1 = score w2.
Proof.
  intros H. unfold score. cbv zeta.
  rewrite (existsb_key _ isErrorNode_key _ _ H).
  rewrite (len_filter_key _ isTrigger_key _ _ H).
  rewrite (len_filter_key _ isHeavy_key _ _ H).
  rewrite (len_filter_key _ isDefaultNamed_key _ _ H).
  now rewrite (len_key _ _ H).
Qed.

(* ===================================================================== *)
(** ** The run-time calculation on documents that respect the interfaces  *)
(* ===================================================================== *)

Lemma Rt_isErrorNode_of (n : Node.t) :
  Rt.isErrorNode (Rt.ofNode n) = Normal (isErrorNode n).
Proof.
  unfold Rt.isErrorNode, isErrorNode. simpl.
  destruct (Js.includes (Js.toLowerCase (Node.type n)) "error"); reflexivity.
Qed.

Lemma Rt_isTrigger_of (n : Node.t) :
  Rt.isTrigger (Rt.ofNode n) = Normal (isTrigger n).
Proof.
  unfold Rt.isTrigger, isTrigger. simpl.
  destruct (Js.includes (Js.toLowerCase (Node.type n)) "trigger"); reflexivity.
Qed.

Lemma Rt_isHeavy_of (n : Node.t) :
  Rt.isHeavy (Rt.ofNode n) = Normal (isHeavy n).
Proof.
  unfold Rt.isHeavy, isHeavy. simpl.
  destruct (Js.includes (Node.type n) "Code"); reflexivity.
Qed.

Lemma Rt_isDefaultNamed_of (n : Node.t) :
  Rt.isDefaultNamed (Rt.ofNode n) = Normal (isDefaultNamed n).
Proof. reflexivity. Qed.

Lemma Rt_some_of (cb : Rt.node -> Completion bool) (p : Node.t -> bool) (a : list Node.t) :
  (forall n, cb (Rt.ofNode n) = Normal (p n)) ->
  Rt.some cb (map Rt.ofNode a) = Normal (existsb p a).
Proof.
  intros H. induction a as [|x a IH]; simpl; [reflexivity |].
  rewrite H. simpl. destruct (p x); [reflexivity | exact IH].
Qed.

Lemma Rt_filter_of (cb : Rt.node -> Completion bool) (p : Node.t -> bool) (a : list Node.t) :
  (forall n, cb (Rt.ofNode n) = Normal (p n)) ->
  Rt.filter cb (map Rt.ofNode a) = Normal (map Rt.ofNode (filter p a)).
Proof.
  intros H. induction a as [|x a IH]; simpl; [reflexivity |].
  rewrite H, IH. simpl. destruct (p x); reflexivity.
Qed.

Lemma len_map {A B : Type} (f : A -> B) (a : list A) : len (map f a) = len a.
Proof. unfold len. now rewrite List.length_map. Qed.

(** On a document that respects the interfaces the run-time calculation
    completes normally with the value of [score]. *)
Lemma Rt_score_of (w : Workflow.t) : Rt.score (Rt.ofWorkflow w) = Normal (score w).
Proof.
  unfold Rt.score, score, Rt.ofWorkflow. cbv zeta. cbn [Rt.nodes].
  rewrite (Rt_some_of _ _ _ Rt_isErrorNode_of). cbn [bind].
  rewrite (Rt_filter_of _ _ _ Rt_isTrigger_of). cbn [bind].
  rewrite (Rt_filter_of _ _ _ Rt_isHeavy_of). cbn [bind].
  rewrite (Rt_filter_of _ _ _ Rt_isDefaultNamed_of). cbn [bind].
  now rewrite !len_map.
Qed.

Lemma call_cases {A : Type} (recv : option string) (m : string -> A) :
  Rt.call recv m = Throw TypeError \/ exists b, Rt.call recv m = Normal b.
Proof. destruct recv; simpl; [right; eauto | now left]. Qed.

Lemma isErrorNode_only : onlyTypeError Rt.isErrorNode.
Proof.
  intros n. unfold Rt.isErrorNode. destruct (Rt.type n); simpl; [|now left].
  right. destruct (Js.includes _ "error"); eauto.
Qed.

Lemma isTrigger_only : onlyTypeError Rt.isTrigger.
Proof.
  intros n. unfold Rt.isTrigger. destruct (Rt.type n); simpl; [|now left].
  right. destruct (Js.includes _ "trigger"); eauto.
Qed.

Lemma isHeavy_only : onlyTypeError Rt.isHeavy.
Proof.
  intros n. unfold Rt.isHeavy. destruct (Rt.type n); simpl; [|now left].
  right. destruct (Js.includes _ "Code"); eauto.
Qed.

Lemma isDefaultNamed_only : onlyTypeError Rt.isDefaultNamed.
Proof. intros n. apply call_cases. Qed.

Lemma some_cases {A : Type} (cb : A -> Completion bool) (a : list A) :
  onlyTypeError cb ->
  Rt.some cb a = Throw TypeError \/ exists b, Rt.some cb a = Normal b.
Proof.
  intros H. induction a as [|x a IH]; simpl; [right; eauto |].
  destruct (H x) as [-> | [b ->]]; simpl; [now left |].
  destruct b; [right; eauto | exact IH].
Qed.

Lemma filter_cases {A : Type} (cb : A -> Completion bool) (a : list A) :
  onlyTypeError cb ->
  Rt.filter cb a = Throw TypeError \/ exists r, Rt.filter cb a = Normal r.
Proof.
  intros H. induction a as [|x a IH]; simpl; [right; eauto |].
  destruct (H x) as [-> | [b ->]]; simpl; [now left |].
  destruct IH as [-> | [r ->]]; simpl; [now left | right; eauto].
Qed.

(** [filter] runs its callback on every element: one element on which the
    callback throws makes the whole [filter] throw. *)
Lemma filter_throws {A : Type} (cb : A -> Completion bool) (a : list A) :
  onlyTypeError cb ->
  Exists (fun x => cb x = Throw TypeError) a ->
  Rt.filter cb a = Throw TypeError.
Proof.
  intros H Hex. induction Hex as [x a Hx | x a Hex IH]; simpl.
  - now rewrite Hx.
  - destruct (H x) as [-> | [b ->]]; simpl; [reflexivity |].
    now rewrite IH.
Qed.

Lemma isTrigger_throws (n : Rt.node) :
  Rt.type n = None -> Rt.isTrigger n = Throw TypeError.
Proof. intros H. unfold Rt.isTrigger. now rewrite H. Qed.

Lemma isDefaultNamed_throws (n : Rt.node) :
  Rt.name n = None -> Rt.isDefaultNamed n = Throw TypeError.
Proof. intros H. unfold Rt.isDefaultNamed. now rewrite H. Qed.

(** A node without [type] or without [name] makes the calculation throw:
    the trigger [filter] reads every [type], the naming [filter] every
    [name]. *)
Lemma Rt_score_throws (d : Rt.workflow) :
  Exists (fun n => Rt.name n = None \/ Rt.type n = None) (Rt.nodes d) ->
  Rt.score d = Throw TypeError.
Proof.
  intros Hex. unfold Rt.score. cbv zeta.
  destruct (some_cases Rt.isErrorNode (Rt.nodes d) isErrorNode_only) as [-> | [b ->]];
    [reflexivity | cbn [bind]].
  destruct (filter_cases Rt.isTrigger (Rt.nodes d) isTrigger_only) as [-> | [tr Htr]];
    [reflexivity |].
  rewrite Htr. cbn [bind].
  destruct (filter_cases Rt.isHeavy (Rt.nodes d) isHeavy_only) as [-> | [hv ->]];
    [reflexivity | cbn [bind]].
  assert (Hdn : Rt.filter Rt.isDefaultNamed (Rt.nodes d) = Throw TypeError).
  { apply filter_throws; [exact isDefaultNamed_only |].
    apply Exists_exists. apply Exists_exists in Hex. destruct Hex as [n [Hin Hn]].
    exists n. split; [exact Hin |]. destruct Hn as [Hn | Hn].
    - now apply isDefaultNamed_throws.
    - exfalso.
      assert (Ht : Rt.filter Rt.isTrigger (Rt.nodes d) = Throw TypeError).
      { apply filter_throws; [exact isTrigger_only |].
        apply Exists_exists. exists n. split; [exact Hin | now apply isTrigger_throws]. }
      congruence. }
  now rewrite Hdn.
Qed.

(* ===================================================================== *)
(** ** What the scoring delivers                                          *)
(* ===================================================================== *)

(** C1, counterexample.  Analysing the empty workflow and analysing a
    workflow of five default-named nodes leave the same score, the same
    analysis and the same loading flag, although a different rule fired
    in each: what the scoring delivers does not carry the findings. *)
Lemma score_does_not_carry_findings :
  let out := fun w => fst (handleAnalyze (Normal sampleResponse) (loaded (Rt.ofWorkflow w))) in
  healthScore (out noTriggerWorkflow) = 90
  /\ healthScore (out defaultNamesWorkflow) = 90
  /\ analysis (out noTriggerWorkflow) = analysis (out defaultNamesWorkflow)
  /\ loading (out noTriggerWorkflow) = loading (out defaultNamesWorkflow)
  /\ triggered noTriggerWorkflow = [mkFinding "No trigger" (-10)]
  /\ triggered defaultNamesWorkflow = [mkFinding "Default naming" (-10)]
  /\ triggered noTriggerWorkflow <> triggered defaultNamesWorkflow.
Proof.
  cbv zeta. repeat split; try reflexivity. vm_compute. discriminate.
Qed.

(** C1, as amended.  For a loaded workflow that respects the interfaces:
    when the external call resolves, [handleAnalyze] completes normally
    and the only thing the scoring delivers is one integer between 0 and
    100, stored in the [healthScore] cell, the other cells holding the
    workflow, the tab, the text of the external analysis and the loading
    flag; when the external call is rejected, [handleAnalyze] aborts with
    the rejection and delivers no score, [healthScore] keeping its value.
    No finding is produced in either case. *)
Theorem handleAnalyze_delivers_score_only
  (st : State) (ai : Completion AIResponse) (w : Workflow.t) :
  workflow st = Some (Rt.ofWorkflow w) ->
  handleAnalyze ai st
  = match ai with
    | Normal res =>
        (mkState (activeTab st) (workflow st) false
                 (Some (mkAnalysis (res_text res) (orElse (res_model res) "AI Model")))
                 (healthScoreOf w),
         Normal tt)
    | Throw e =>
        (mkState (activeTab st) (workflow st) true None (healthScore st), Throw e)
    end
  /\ 0 <= healthScoreOf w <= 100.
Proof.
  intros Hw. split; [| apply healthScoreOf_range].
  unfold handleAnalyze. rewrite Hw. destruct ai as [res | e].
  - rewrite Rt_score_of.
    unfold setLoading, setAnalysis, setHealthScore, healthScoreOf. cbn.
    now rewrite Hw.
  - unfold setLoading, setAnalysis. cbn. now rewrite Hw.
Qed.

Lemma handleAnalyze_delivers_score_only_witness :
  workflow (loaded (Rt.ofWorkflow defaultNamesWorkflow))
  = Some (Rt.ofWorkflow defaultNamesWorkflow)
  /\ (handleAnalyze (Normal sampleResponse) (loaded (Rt.ofWorkflow defaultNamesWorkflow))
      = (mkState visual (Some (Rt.ofWorkflow defaultNamesWorkflow)) false
                 (Some (mkAnalysis "- Add error handling node." "AI Model"))
                 (healthScoreOf defaultNamesWorkflow),
         Normal tt)
      /\ 0 <= healthScoreOf defaultNamesWorkflow <= 100)
  /\ (handleAnalyze (Throw (Rejected "timeout")) (loaded (Rt.ofWorkflow defaultNamesWorkflow))
      = (mkState visual (Some (Rt.ofWorkflow defaultNamesWorkflow)) true None 0,
         Throw (Rejected "timeout"))
      /\ 0 <= healthScoreOf defaultNamesWorkflow <= 100).
Proof.
  split; [reflexivity |]. split.
  - apply (handleAnalyze_delivers_score_only
             (loaded (Rt.ofWorkflow defaultNamesWorkflow)) (Normal sampleResponse)
             defaultNamesWorkflow).
    reflexivity.
  - apply (handleAnalyze_delivers_score_only
             (loaded (Rt.ofWorkflow defaultNamesWorkflow)) (Throw (Rejected "timeout"))
             defaultNamesWorkflow).
    reflexivity.
Defined.

(* ===================================================================== *)
(** ** The error-handling rule                                            *)
(* ===================================================================== *)

(** The test the rule applies, spelled out: the [-20] is taken exactly
    when there are more than five nodes and no [type] contains [error] in
    any letter case or [catch] in lower case. *)
Lemma errorPenalty_iff (nodes : list Node.t) :
  errorPenalty nodes = 20
  <-> 5 < len nodes
      /\ forall n, In n nodes ->
           Js.includes (Js.toLowerCase (Node.type n)) "error" = false
           /\ Js.includes (Node.type n) "catch" = false.
Proof.
  unfold errorPenalty.
  destruct (existsb isErrorNode nodes) eqn:E; simpl.
  - split; [discriminate |]. intros [_ H].
    apply existsb_exists in E. destruct E as [n [Hin Hn]].
    destruct (H n Hin) as [H1 H2]. unfold isErrorNode in Hn.
    rewrite H1, H2 in Hn. discriminate.
  - assert (Hall : forall n, In n nodes ->
             Js.includes (Js.toLowerCase (Node.type n)) "error" = false
             /\ Js.includes (Node.type n) "catch" = false).
    { intros n Hin. apply orb_false_iff.
      destruct (Js.includes (Js.toLowerCase (Node.type n)) "error"
                || Js.includes (Node.type n) "catch") eqn:En; [| reflexivity].
      assert (existsb isErrorNode nodes = true)
        by (apply existsb_exists; exists n; split; [exact Hin | exact En]).
      congruence. }
    destruct (len nodes >? 5) eqn:El; zbool.
    + split; [intros _; split; [lia | exact Hall] | reflexivity].
    + split; [discriminate | intros [Hl _]; lia].
Qed.

(** C2, the code at the failing input.  The last node's [type] contains
    [catch] under case-insensitive matching, yet [hasErrorNodes] is false
    and the missing-error-handling rule fires: the score is 80, not
    100. *)
Lemma uppercase_Catch_is_penalised :
  existsb (fun n => Js.includes (Js.toLowerCase (Node.type n)) "catch")
          (Workflow.nodes catchWorkflow) = true
  /\ 5 < len (Workflow.nodes catchWorkflow)
  /\ existsb isErrorNode (Workflow.nodes catchWorkflow) = false
  /\ triggered catchWorkflow = [mkFinding "Missing error handling" (-20)]
  /\ healthScoreOf catchWorkflow = 80.
Proof. repeat split; reflexivity. Qed.

(** The same workflow with the type spelled [catch] is not penalised. *)
Example lowercase_catch_is_accepted :
  healthScoreOf
    (wf [node "Hook" "n8n-nodes-base.webhook"; node "Fetch" "n8n-nodes-base.httpRequest";
         node "Parse" "n8n-nodes-base.set"; node "Route" "n8n-nodes-base.if";
         node "Store" "n8n-nodes-base.postgres"; node "Recover" "n8n-nodes-base.catch"])
  = 100.
Proof. reflexivity. Qed.

(** The trigger rule, in contrast, lowers the type on both sides of its
    [||]. *)
Example uppercase_Webhook_is_a_trigger :
  isTrigger (node "Hook" "n8n-nodes-base.Webhook") = true
  /\ isTrigger (node "Hook" "n8n-nodes-base.cronTrigger") = true.
Proof. split; reflexivity. Qed.

(* ===================================================================== *)
(** ** The naming rule                                                    *)
(* ===================================================================== *)

(** The calculation at [Js.toLowerCase] is [score]. *)
Lemma scoreWith_model (w : Workflow.t) : scoreWith Js.toLowerCase w = score w.
Proof. reflexivity. Qed.

Lemma healthScoreWith_model (w : Workflow.t) :
  healthScoreWith Js.toLowerCase w = healthScoreOf w.
Proof. reflexivity. Qed.

(** Where [Js.toLowerCase] and the code part: the code lowers the Kelvin
    sign to [k] and so takes this type for a webhook, [Js.toLowerCase]
    leaves the sign alone.  The statements made for every lowering
    function do not depend on it: with the code's function the node below
    is a trigger, with [Js.toLowerCase] it is none, and each statement
    uses one and the same function in its hypotheses and its conclusion. *)
Example kelvin_sign_is_left_alone :
  Js.toLowerCase ("WEBHOO" ++ kelvinSign) = "webhoo" ++ kelvinSign
  /\ isTriggerWith Js.toLowerCase (node "Hook" ("n8n-nodes-base.WEBHOO" ++ kelvinSign)) = false
  /\ isTriggerWith (fun _ => "n8n-nodes-base.webhook")
                   (node "Hook" ("n8n-nodes-base.WEBHOO" ++ kelvinSign)) = true.
Proof. repeat split; reflexivity. Qed.

Section AnyLoweringScore.

Variable toLowerCase : string -> string.

(** Whatever the lowering function, the accumulated score is the base 100
    less the points of the six fixed rules and two points per
    default-named node. *)
Lemma scoreWith_split (w : Workflow.t) :
  scoreWith toLowerCase w = 100 - fixedPenaltyWith toLowerCase w - 2 * defaultCount w.
Proof.
  unfold scoreWith, fixedPenaltyWith, errorPenaltyWith, sizePenalty, triggerPenaltyWith,
    codePenalty, defaultCount.
  cbv zeta.
  pose proof (len_nonneg (filter isDefaultNamed (Workflow.nodes w))).
  split_ifs; zbool; lia.
Qed.


End AnyLoweringScore.




(** Sixty default-named nodes: the naming rule alone takes off 120. *)
Example naming_rule_has_no_cap :
  let w := wf (repeat (node "Node 7" "n8n-nodes-base.errorTrigger") 60) in
  defaultCount w = 60 /\ score w = -40 /\ healthScoreOf w = 0.
Proof. cbv zeta. repeat split; vm_compute; reflexivity. Qed.

Example Node_space_7_is_penalised :
  score (wf [node "Node 7" "n8n-nodes-base.webhook"]) = 98.
Proof. reflexivity. Qed.

(* ===================================================================== *)
(** ** Adding a node                                                      *)
(* ===================================================================== *)

Lemma existsb_insert {A : Type} (p : A -> bool) (pre post : list A) (x : A) :
  existsb p (pre ++ x :: post)%list = p x || existsb p (pre ++ post)%list.
Proof.
  rewrite !existsb_app. simpl.
  destruct (existsb p pre), (p x), (existsb p post); reflexivity.
Qed.

Lemma len_filter_insert {A : Type} (p : A -> bool) (pre post : list A) (x : A) :
  len (filter p (pre ++ x :: post)%list)
  = len (filter p (pre ++ post)%list) + (if p x then 1 else 0).
Proof.
  rewrite !filter_app, !len_app. simpl.
  destruct (p x); rewrite ?len_cons; lia.
Qed.

Lemma len_insert {A : Type} (pre post : list A) (x : A) :
  len (pre ++ x :: post)%list = len (pre ++ post)%list + 1.
Proof. rewrite !len_app, len_cons. lia. Qed.

Lemma existsb_len_filter {A : Type} (p : A -> bool) (a : list A) :
  existsb p a = true <-> 0 < len (filter p a).
Proof.
  induction a as [|x a IH]; simpl.
  - split; [discriminate | intros H; exfalso; unfold len in H; simpl in H; lia].
  - destruct (p x); simpl.
    + rewrite len_cons. pose proof (len_nonneg (filter p a)). split; [lia | reflexivity].
    + exact IH.
Qed.

Lemma sizePenalty_insert (pre post : list Node.t) (n : Node.t) :
  sizePenalty (pre ++ post)%list <= sizePenalty (pre ++ n :: post)%list.
Proof. unfold sizePenalty. rewrite len_insert. split_ifs; zbool; lia. Qed.

Lemma codePenalty_insert (pre post : list Node.t) (n : Node.t) :
  codePenalty (pre ++ post)%list <= codePenalty (pre ++ n :: post)%list.
Proof.
  unfold codePenalty. rewrite len_filter_insert.
  destruct (isHeavy n); split_ifs; zbool; lia.
Qed.

(** C4, counterexample.  Adding the default-named node [Node 1] of type
    webhook to the empty workflow raises the score from 90 to 98: the
    node is the workflow's first trigger. *)
Lemma adding_default_named_trigger_raises_score :
  let w := wf [] in
  let n := node "Node 1" "n8n-nodes-base.webhook" in
  isDefaultNamed n = true
  /\ healthScoreOf w = 90
  /\ healthScoreOf (withNodes w (Workflow.nodes w ++ [n])%list) = 98
  /\ ~ healthScoreOf (withNodes w (Workflow.nodes w ++ [n])%list) <= healthScoreOf w.
Proof. cbv zeta. repeat split; try reflexivity. vm_compute. intros H. apply H. reflexivity. Qed.

(** The same happens with the first error-handling node of a workflow of
    more than five nodes. *)
Example adding_default_named_error_node_raises_score :
  let w := wf (node "Hook" "n8n-nodes-base.webhook" :: repeat (node "Step" "n8n-nodes-base.set") 5) in
  let n := node "Node 1" "n8n-nodes-base.errorTrigger" in
  healthScoreOf w = 80 /\ healthScoreOf (withNodes w (n :: Workflow.nodes w)) = 98.
Proof. cbv zeta. split; reflexivity. Qed.

Section AnyLoweringInsert.

Variable toLowerCase : string -> string.

Lemma errorPenaltyWith_insert (pre post : list Node.t) (n : Node.t) :
  isErrorNodeWith toLowerCase n = false
  \/ existsb (isErrorNodeWith toLowerCase) (pre ++ post)%list = true
  \/ len (pre ++ post)%list <= 5 ->
  errorPenaltyWith toLowerCase (pre ++ post)%list
  <= errorPenaltyWith toLowerCase (pre ++ n :: post)%list.
Proof.
  intros He. unfold errorPenaltyWith. rewrite existsb_insert, len_insert.
  destruct He as [-> | [-> | Hl]]; rewrite ?orb_true_r; cbn [orb negb andb].
  - destruct (existsb (isErrorNodeWith toLowerCase) (pre ++ post)%list); cbn [negb andb];
      split_ifs; zbool; lia.
  - lia.
  - replace (len (pre ++ post)%list >? 5) with false
      by (symmetry; rewrite Z.gtb_ltb; apply Z.ltb_ge; lia).
    rewrite andb_false_r. split_ifs; lia.
Qed.

Lemma triggerPenaltyWith_insert (pre post : list Node.t) (n : Node.t) :
  isTriggerWith toLowerCase n = false
  \/ existsb (isTriggerWith toLowerCase) (pre ++ post)%list = true ->
  triggerPenaltyWith toLowerCase (pre ++ post)%list
  <= triggerPenaltyWith toLowerCase (pre ++ n :: post)%list.
Proof.
  intros Ht. unfold triggerPenaltyWith. rewrite len_filter_insert.
  pose proof (len_nonneg (filter (isTriggerWith toLowerCase) (pre ++ post)%list)).
  destruct Ht as [-> | Ht].
  - rewrite Z.add_0_r. lia.
  - apply existsb_len_filter in Ht.
    destruct (isTriggerWith toLowerCase n); split_ifs; zbool; lia.
Qed.

End AnyLoweringInsert.

(** C4, as amended.  Adding one default-named node at any place of the
    node sequence, everything else held fixed, never increases the score,
    provided the added node does not remove a penalty the workflow
    incurs: it is not the first error-handling node of a workflow of more
    than five nodes, and not the first trigger.  The accumulated score
    then drops by at least two.  [toLowerCase] stands for
    [String.prototype.toLowerCase]: the statement is made for every
    function, the same in the provisos and in the score, so it holds of
    the code whatever that function does to letters outside ASCII. *)
Theorem adding_default_named_node_monotone
  (toLowerCase : string -> string)
  (w : Workflow.t) (pre post : list Node.t) (n : Node.t) :
  Workflow.nodes w = (pre ++ post)%list ->
  isDefaultNamed n = true ->
  isErrorNodeWith toLowerCase n = false
  \/ existsb (isErrorNodeWith toLowerCase) (Workflow.nodes w) = true
  \/ len (Workflow.nodes w) <= 5 ->
  isTriggerWith toLowerCase n = false
  \/ existsb (isTriggerWith toLowerCase) (Workflow.nodes w) = true ->
  scoreWith toLowerCase (withNodes w (pre ++ n :: post)%list) <= scoreWith toLowerCase w - 2
  /\ healthScoreWith toLowerCase (withNodes w (pre ++ n :: post)%list)
     <= healthScoreWith toLowerCase w
  /\ scoreWith Js.toLowerCase w = score w.
Proof.
  intros Hw Hd He Ht.
  assert (Hs : scoreWith toLowerCase (withNodes w (pre ++ n :: post)%list)
               <= scoreWith toLowerCase w - 2).
  { rewrite !scoreWith_split. unfold fixedPenaltyWith, defaultCount. cbv zeta.
    cbn [withNodes Workflow.nodes]. rewrite Hw in He, Ht |- *.
    pose proof (errorPenaltyWith_insert toLowerCase pre post n He).
    pose proof (sizePenalty_insert pre post n).
    pose proof (triggerPenaltyWith_insert toLowerCase pre post n Ht).
    pose proof (codePenalty_insert pre post n).
    rewrite len_filter_insert, Hd. lia. }
  split; [exact Hs |]. split; [unfold healthScoreWith; lia | reflexivity].
Qed.

Lemma adding_default_named_node_monotone_witness :
  let w := wf [node "Hook" "n8n-nodes-base.webhook"; node "Step" "n8n-nodes-base.set"] in
  let n := node "Node 2" "n8n-nodes-base.errorTrigger" in
  scoreWith Js.toLowerCase
    (withNodes w ([node "Hook" "n8n-nodes-base.webhook"] ++ n :: [node "Step" "n8n-nodes-base.set"])%list)
  <= scoreWith Js.toLowerCase w - 2
  /\ healthScoreWith Js.toLowerCase
       (withNodes w ([node "Hook" "n8n-nodes-base.webhook"] ++ n :: [node "Step" "n8n-nodes-base.set"])%list)
     <= healthScoreWith Js.toLowerCase w
  /\ scoreWith Js.toLowerCase w = score w.
Proof.
  cbv zeta.
  apply (adding_default_named_node_monotone Js.toLowerCase
           (wf [node "Hook" "n8n-nodes-base.webhook"; node "Step" "n8n-nodes-base.set"])
           [node "Hook" "n8n-nodes-base.webhook"] [node "Step" "n8n-nodes-base.set"]
           (node "Node 2" "n8n-nodes-base.errorTrigger")).
  - reflexivity.
  - reflexivity.
  - right. right. vm_compute. discriminate.
  - right. reflexivity.
Defined.

(* ===================================================================== *)
(** ** The final clamp                                                    *)
(* ===================================================================== *)

Lemma none_In {A : Type} (p : A -> bool) (a : list A) :
  forallb (fun x => negb (p x)) a = true -> forall x, In x a -> p x = false.
Proof.
  intros H x Hin. rewrite forallb_forall in H. apply negb_true_iff. now apply H.
Qed.

(** C5.  The final score is the base 100 plus the (negative) deltas of
    the rules that fired, that is 100 less the points they take off,
    clamped once to the range 0..100: deltas summing below [-100] give
    exactly 0, and a workflow on which no rule fires gives exactly 100. *)
Theorem final_score_is_clamped_sum (w : Workflow.t) :
  healthScoreOf w = clamp (100 + sumDeltas (triggered w)) 0 100
  /\ sumDeltas (triggered w) = - (fixedPenalty w + 2 * defaultCount w)
  /\ healthScoreOf w = clamp (100 - (fixedPenalty w + 2 * defaultCount w)) 0 100
  /\ (sumDeltas (triggered w) < -100 -> healthScoreOf w = 0)
  /\ (triggered w = [] -> healthScoreOf w = 100).
Proof.
  pose proof (score_sumDeltas w) as Hs. pose proof (score_split w) as Hp.
  assert (Hd : sumDeltas (triggered w) = - (fixedPenalty w + 2 * defaultCount w)) by lia.
  unfold healthScoreOf, clamp. rewrite Hs.
  split; [reflexivity |]. split; [exact Hd |]. split; [rewrite Hd; f_equal; f_equal; lia |].
  split; [lia |]. intros ->. reflexivity.
Qed.

Lemma final_score_is_clamped_sum_witness :
  (sumDeltas (triggered neglectedWorkflow) < -100 /\ healthScoreOf neglectedWorkflow = 0)
  /\ (triggered cleanWorkflow = [] /\ healthScoreOf cleanWorkflow = 100).
Proof.
  split; split.
  - reflexivity.
  - apply (proj1 (proj2 (proj2 (proj2 (final_score_is_clamped_sum neglectedWorkflow))))).
    reflexivity.
  - reflexivity.
  - apply (proj2 (proj2 (proj2 (proj2 (final_score_is_clamped_sum cleanWorkflow))))).
    reflexivity.
Defined.

Example neglected_deltas :
  triggered neglectedWorkflow
  = [mkFinding "Missing error handling" (-20); mkFinding "Moderate size penalty" (-5);
     mkFinding "Large size penalty" (-10); mkFinding "No trigger" (-10);
     mkFinding "Default naming" (-100)]
  /\ score neglectedWorkflow = -45.
Proof. split; vm_compute; reflexivity. Qed.

(* ===================================================================== *)
(** ** Small workflows without a trigger                                  *)
(* ===================================================================== *)

Lemma empty_nodes_score_90 (w : Workflow.t) :
  Workflow.nodes w = [] -> healthScoreOf w = 90.
Proof. intros H. unfold healthScoreOf, score. rewrite H. reflexivity. Qed.

(** C6.  A workflow of at most five nodes, none of them a trigger or a
    webhook under the code's case-insensitive test, none default-named,
    with at most three code or function nodes, scores exactly 90; so does
    every workflow without nodes.  [toLowerCase] stands for
    [String.prototype.toLowerCase]: the statement is made for every
    function, the same in the trigger test and in the score, so it holds
    of the code whatever that function does to letters outside ASCII. *)
Theorem small_workflow_without_trigger_scores_90
  (toLowerCase : string -> string) (w : Workflow.t) :
  len (Workflow.nodes w) <= 5 ->
  (forall n, In n (Workflow.nodes w) -> isTriggerWith toLowerCase n = false) ->
  (forall n, In n (Workflow.nodes w) -> isDefaultNamed n = false) ->
  len (filter isHeavy (Workflow.nodes w)) <= 3 ->
  healthScoreWith toLowerCase w = 90
  /\ healthScoreWith toLowerCase (withNodes w []) = 90
  /\ healthScoreWith Js.toLowerCase w = healthScoreOf w.
Proof.
  intros Hlen Htr Hdn Hheavy. split; [| split; reflexivity].
  unfold healthScoreWith, scoreWith. cbv zeta.
  rewrite (filter_none (isTriggerWith toLowerCase) _ Htr), (filter_none isDefaultNamed _ Hdn).
  rewrite andb_comm.
  replace (len (Workflow.nodes w) >? 5) with false by (symmetry; rewrite Z.gtb_ltb; apply Z.ltb_ge; lia).
  replace (len (Workflow.nodes w) >? 10) with false by (symmetry; rewrite Z.gtb_ltb; apply Z.ltb_ge; lia).
  replace (len (Workflow.nodes w) >? 20) with false by (symmetry; rewrite Z.gtb_ltb; apply Z.ltb_ge; lia).
  replace (len (filter isHeavy (Workflow.nodes w)) >? 3) with false
    by (symmetry; rewrite Z.gtb_ltb; apply Z.ltb_ge; lia).
  reflexivity.
Qed.

Lemma small_workflow_without_trigger_scores_90_witness :
  healthScoreWith Js.toLowerCase smallWorkflow = 90
  /\ healthScoreWith Js.toLowerCase (withNodes smallWorkflow []) = 90
  /\ healthScoreWith Js.toLowerCase smallWorkflow = healthScoreOf smallWorkflow.
Proof.
  apply (small_workflow_without_trigger_scores_90 Js.toLowerCase smallWorkflow).
  - vm_compute. discriminate.
  - apply none_In. reflexivity.
  - apply none_In. reflexivity.
  - vm_compute. discriminate.
Defined.

(* ===================================================================== *)
(** ** Absent [name] or [type]                                            *)
(* ===================================================================== *)

(** C7, counterexample.  With the empty string substituted for the absent
    name the document would score 100; the calculation throws a
    [TypeError] instead, and [handleAnalyze] stops with the initial health
    score 0 and the loading flag still set. *)
Lemma missing_name_aborts_scoring :
  healthScoreOf (substituted namelessDocument) = 100
  /\ Rt.score namelessDocument = Throw TypeError
  /\ Rt.score namelessDocument <> Normal (score (substituted namelessDocument))
  /\ handleAnalyze (Normal sampleResponse) (loaded namelessDocument)
     = (mkState visual (Some namelessDocument) true
                (Some (mkAnalysis "- Add error handling node." "AI Model")) 0,
        Throw TypeError).
Proof. repeat split; try reflexivity. discriminate. Qed.

(** C7, as amended.  For every workflow containing a node whose [name] or
    [type] is absent, no empty string is substituted: the calculation
    throws a [TypeError], and [handleAnalyze] never completes normally.
    When the external call resolved it aborts with the [TypeError], the
    new analysis text already stored; when the external call was rejected
    it aborts with the rejection.  Either way no score is produced, the
    health score keeps the value it had and the loading flag stays set. *)
Theorem missing_field_aborts_scoring
  (d : Rt.workflow) (st : State) (ai : Completion AIResponse) :
  workflow st = Some d ->
  Exists (fun n => Rt.name n = None \/ Rt.type n = None) (Rt.nodes d) ->
  Rt.score d = Throw TypeError
  /\ handleAnalyze ai st
     = match ai with
       | Normal res =>
           (mkState (activeTab st) (Some d) true
                    (Some (mkAnalysis (res_text res) (orElse (res_model res) "AI Model")))
                    (healthScore st),
            Throw TypeError)
       | Throw e =>
           (mkState (activeTab st) (Some d) true None (healthScore st), Throw e)
       end
  /\ healthScore (fst (handleAnalyze ai st)) = healthScore st
  /\ loading (fst (handleAnalyze ai st)) = true
  /\ snd (handleAnalyze ai st) <> Normal tt.
Proof.
  intros Hw Hex. pose proof (Rt_score_throws d Hex) as Hs. split; [exact Hs |].
  unfold handleAnalyze. rewrite Hw, Hs.
  destruct ai as [res | e]; unfold setAnalysis, setLoading; cbn; rewrite ?Hw;
    repeat split; discriminate.
Qed.

Lemma missing_field_aborts_scoring_witness :
  (Rt.score namelessDocument = Throw TypeError
   /\ handleAnalyze (Normal sampleResponse) (loaded namelessDocument)
      = (mkState visual (Some namelessDocument) true
                 (Some (mkAnalysis "- Add error handling node." "AI Model")) 0,
         Throw TypeError)
   /\ healthScore (fst (handleAnalyze (Normal sampleResponse) (loaded namelessDocument))) = 0
   /\ loading (fst (handleAnalyze (Normal sampleResponse) (loaded namelessDocument))) = true
   /\ snd (handleAnalyze (Normal sampleResponse) (loaded namelessDocument)) <> Normal tt)
  /\ handleAnalyze (Throw (Rejected "timeout")) (loaded namelessDocument)
     = (mkState visual (Some namelessDocument) true None 0, Throw (Rejected "timeout")).
Proof.
  split.
  - apply (missing_field_aborts_scoring namelessDocument (loaded namelessDocument)
             (Normal sampleResponse)).
    + reflexivity.
    + apply Exists_cons_hd. left. reflexivity.
  - refine (proj1 (proj2 (missing_field_aborts_scoring namelessDocument
                            (loaded namelessDocument) (Throw (Rejected "timeout"))
                            eq_refl _))).
    apply Exists_cons_hd. left. reflexivity.
Defined.

(** A node without [type] behind an error-handling node: [some] stops
    before reaching it, the trigger [filter] does not. *)
Example missing_type_behind_error_node :
  let d := Rt.mkWorkflow None
             [Rt.mkNode (Some "Guard") (Some "n8n-nodes-base.errorTrigger") None;
              Rt.mkNode (Some "Step") None None] [] in
  Rt.some Rt.isErrorNode (Rt.nodes d) = Normal true
  /\ Rt.filter Rt.isTrigger (Rt.nodes d) = Throw TypeError
  /\ Rt.score d = Throw TypeError.
Proof. cbv zeta. repeat split; reflexivity. Qed.

(** When every node has both properties the calculation completes
    normally, with the score of the document read through the
    interfaces. *)
Lemma Rt_some_present (cb : Rt.node -> Completion bool) (p : Node.t -> bool)
  (a : list Rt.node) :
  (forall n, In n a -> cb n = Normal (p (substituteEmpty n))) ->
  Rt.some cb a = Normal (existsb p (map substituteEmpty a)).
Proof.
  induction a as [|x a IH]; intros H; simpl; [reflexivity |].
  rewrite (H x (or_introl eq_refl)). simpl.
  destruct (p (substituteEmpty x)); [reflexivity |].
  apply IH. intros n Hn. apply H. now right.
Qed.

Lemma Rt_filter_present (cb : Rt.node -> Completion bool) (p : Node.t -> bool)
  (a : list Rt.node) :
  (forall n, In n a -> cb n = Normal (p (substituteEmpty n))) ->
  exists r, Rt.filter cb a = Normal r
            /\ len r = len (filter p (map substituteEmpty a)).
Proof.
  induction a as [|x a IH]; intros H; simpl; [now exists [] |].
  rewrite (H x (or_introl eq_refl)). simpl.
  destruct IH as [r [-> Hr]]; [intros n Hn; apply H; now right |].
  simpl. destruct (p (substituteEmpty x)).
  - exists (x :: r). split; [reflexivity |]. rewrite !len_cons. lia.
  - exists r. split; [reflexivity | exact Hr].
Qed.

Lemma Rt_score_present (d : Rt.workflow) :
  (forall n, In n (Rt.nodes d) -> Rt.name n <> None /\ Rt.type n <> None) ->
  Rt.score d = Normal (score (substituted d)).
Proof.
  intros H.
  assert (Ht : forall n, In n (Rt.nodes d) -> exists t, Rt.type n = Some t)
    by (intros n Hn; destruct (H n Hn) as [_ Ht]; destruct (Rt.type n); [eauto | congruence]).
  assert (Hn : forall n, In n (Rt.nodes d) -> exists s, Rt.name n = Some s)
    by (intros n Hin; destruct (H n Hin) as [Hn _]; destruct (Rt.name n); [eauto | congruence]).
  unfold Rt.score, score, substituted. cbv zeta. cbn [Workflow.nodes].
  rewrite (Rt_some_present Rt.isErrorNode isErrorNode).
  2:{ intros n Hin. destruct (Ht n Hin) as [t Et].
      unfold Rt.isErrorNode, isErrorNode, substituteEmpty. rewrite Et. simpl.
      destruct (Js.includes (Js.toLowerCase t) "error"); reflexivity. }
  cbn [bind].
  destruct (Rt_filter_present Rt.isTrigger isTrigger (Rt.nodes d)) as [tr [-> Htr]].
  { intros n Hin. destruct (Ht n Hin) as [t Et].
    unfold Rt.isTrigger, isTrigger, substituteEmpty. rewrite Et. simpl.
    destruct (Js.includes (Js.toLowerCase t) "trigger"); reflexivity. }
  cbn [bind].
  destruct (Rt_filter_present Rt.isHeavy isHeavy (Rt.nodes d)) as [hv [-> Hhv]].
  { intros n Hin. destruct (Ht n Hin) as [t Et].
    unfold Rt.isHeavy, isHeavy, substituteEmpty. rewrite Et. simpl.
    destruct (Js.includes t "Code"); reflexivity. }
  cbn [bind].
  destruct (Rt_filter_present Rt.isDefaultNamed isDefaultNamed (Rt.nodes d)) as [dn [-> Hdn]].
  { intros n Hin. destruct (Hn n Hin) as [s Es].
    unfold Rt.isDefaultNamed, isDefaultNamed, substituteEmpty. rewrite Es. reflexivity. }
  cbn [bind]. now rewrite Htr, Hhv, Hdn, len_map.
Qed.

(* ===================================================================== *)
(** ** What the calculation reads                                         *)
(* ===================================================================== *)

(** C8.  Two workflows whose node sequences agree on the names and types
    of the nodes have the same score, whatever their [connections], their
    own names and the positions of their nodes; this holds for the
    accumulated score, for the clamped one and for the calculation on the
    run-time documents. *)
Theorem score_depends_on_nodes_only (w1 w2 : Workflow.t) :
  map key (Workflow.nodes w1) = map key (Workflow.nodes w2) ->
  score w1 = score w2
  /\ healthScoreOf w1 = healthScoreOf w2
  /\ Rt.score (Rt.ofWorkflow w1) = Rt.score (Rt.ofWorkflow w2).
Proof.
  intros H. pose proof (score_key w1 w2 H) as Hs.
  split; [exact Hs |]. split.
  - unfold healthScoreOf. now rewrite Hs.
  - now rewrite !Rt_score_of, Hs.
Qed.

(** Identical node sequences are a special case. *)
Lemma same_nodes_same_key (w1 w2 : Workflow.t) :
  Workflow.nodes w1 = Workflow.nodes w2 ->
  map key (Workflow.nodes w1) = map key (Workflow.nodes w2).
Proof. intros ->. reflexivity. Qed.

Lemma score_depends_on_nodes_only_witness :
  score wiredWorkflow = score unwiredWorkflow
  /\ healthScoreOf wiredWorkflow = healthScoreOf unwiredWorkflow
  /\ Rt.score (Rt.ofWorkflow wiredWorkflow) = Rt.score (Rt.ofWorkflow unwiredWorkflow).
Proof.
  apply (score_depends_on_nodes_only wiredWorkflow unwiredWorkflow). reflexivity.
Defined.

(* ===================================================================== *)
(** ** The fixed rules take off at most 50                                *)
(* ===================================================================== *)

(** C9.  Without a default-named node the score is at least 50: the six
    fixed rules take off at most 20 + 5 + 10 + 10 + 5 = 50 points (the
    no-trigger and too-many-triggers rules exclude each other), and the
    score is then exactly 100 less what they take. *)
Theorem score_at_least_50_without_default_names (w : Workflow.t) :
  (forall n, In n (Workflow.nodes w) -> isDefaultNamed n = false) ->
  fixedPenalty w <= 50
  /\ healthScoreOf w = 100 - fixedPenalty w
  /\ 50 <= healthScoreOf w.
Proof.
  intros H. pose proof (fixedPenalty_bounds w) as Hb.
  assert (Hd : defaultCount w = 0)
    by (unfold defaultCount; now rewrite (filter_none isDefaultNamed _ H)).
  unfold healthScoreOf. rewrite score_split, Hd. lia.
Qed.

Lemma score_at_least_50_without_default_names_witness :
  fixedPenalty worstFixedWorkflow <= 50
  /\ healthScoreOf worstFixedWorkflow = 100 - fixedPenalty worstFixedWorkflow
  /\ 50 <= healthScoreOf worstFixedWorkflow.
Proof.
  apply (score_at_least_50_without_default_names worstFixedWorkflow).
  apply none_In. reflexivity.
Defined.

Example fifty_is_reached :
  fixedPenalty worstFixedWorkflow = 50 /\ healthScoreOf worstFixedWorkflow = 50.
Proof. split; reflexivity. Qed.

(* ===================================================================== *)
(** ** The regular expression of the naming rule                          *)
(* ===================================================================== *)





(* ===================================================================== *)
(** ** The node cards: label and badge                                    *)
(* ===================================================================== *)

Lemma append_assoc (a b c : string) : (a ++ b) ++ c = a ++ b ++ c.
Proof. induction a as [|x a IH]; simpl; [reflexivity | now rewrite IH]. Qed.

Lemma toLowerCase_app (a b : string) :
  Js.toLowerCase (a ++ b) = Js.toLowerCase a ++ Js.toLowerCase b.
Proof. induction a as [|c a IH]; simpl; [reflexivity | now rewrite IH]. Qed.

(** Lowering both the text and the word searched keeps an occurrence. *)
Lemma includes_toLowerCase (s sub : string) :
  Js.includes s sub = true ->
  Js.includes (Js.toLowerCase s) (Js.toLowerCase sub) = true.
Proof.
  intros H. apply includes_iff in H. destruct H as [pre [post ->]].
  apply includes_iff. exists (Js.toLowerCase pre), (Js.toLowerCase post).
  now rewrite !toLowerCase_app.
Qed.

Lemma split_nonempty (sep : ascii) (s : string) : split sep s <> [].
Proof.
  destruct s as [|c r]; simpl; [discriminate |].
  destruct (Ascii.eqb c sep); [discriminate |].
  destruct (split sep r); discriminate.
Qed.

Lemma join_cons (sep x y : string) (r : list string) :
  join sep (x :: y :: r) = x ++ sep ++ join sep (y :: r).
Proof. reflexivity. Qed.

(** Joining the pieces of a split with the separator gives the string
    back. *)
Lemma join_split (sep : ascii) (s : string) :
  join (String sep "") (split sep s) = s.
Proof.
  induction s as [|c r IH]; [reflexivity |].
  pose proof (split_nonempty sep r) as Hne.
  cbn [split]. destruct (Ascii.eqb c sep) eqn:E.
  - apply Ascii.eqb_eq in E. subst c.
    destruct (split sep r) as [|x xs]; [congruence |].
    rewrite join_cons, IH. reflexivity.
  - destruct (split sep r) as [|x xs]; [congruence |].
    destruct xs as [|y ys].
    + cbn [join] in *. now rewrite IH.
    + rewrite join_cons in *. rewrite <- IH. reflexivity.
Qed.

Lemma includes_one_cons (sep c : ascii) (s : string) :
  Ascii.eqb c sep = false ->
  Js.includes (String c s) (String sep "") = Js.includes s (String sep "").
Proof.
  intros E. cbn [Js.includes Js.startsWith].
  rewrite Ascii.eqb_sym, E. reflexivity.
Qed.

(** No piece of a split contains the separator. *)
Lemma split_pieces (sep : ascii) (s : string) :
  Forall (fun seg => Js.includes seg (String sep "") = false) (split sep s).
Proof.
  induction s as [|c r IH]; simpl.
  - constructor; [reflexivity | constructor].
  - destruct (Ascii.eqb c sep) eqn:E.
    + constructor; [reflexivity | exact IH].
    + destruct (split sep r) as [|x xs]; [constructor; [|constructor] |].
      * now rewrite includes_one_cons.
      * inversion IH as [|? ? Hx Hxs]; subst. constructor; [| exact Hxs].
        now rewrite includes_one_cons.
Qed.

(** The element [pop] returns ends the joined string, after a separator
    unless it is the only element. *)
Lemma pop_join (sep : string) (segs : list string) :
  segs <> [] ->
  exists l, pop segs = Some l /\ In l segs
            /\ (join sep segs = l \/ exists pre, join sep segs = pre ++ sep ++ l).
Proof.
  induction segs as [|x r IH]; intros Hne; [congruence |].
  destruct r as [|y r'].
  - exists x. split; [reflexivity |]. split; [now left | now left].
  - destruct IH as [l [Hp [Hin Hj]]]; [discriminate |].
    exists l. split; [exact Hp |]. split; [now right |]. right.
    rewrite join_cons. destruct Hj as [Hj | [pre Hj]].
    + exists x. now rewrite Hj.
    + exists (x ++ sep ++ pre). rewrite Hj. now rewrite !append_assoc.
Qed.

(** X1.  The label of a node card, [node.type.split(".").pop()], is always
    defined, contains no dot, and is the whole type or what follows a dot
    of the type: it is the part of the type after its last dot. *)
Theorem typeLabel_after_last_dot (type : string) :
  exists l, typeLabel type = Some l
            /\ Js.includes l "." = false
            /\ (type = l \/ exists pre, type = pre ++ "." ++ l).
Proof.
  unfold typeLabel.
  destruct (pop_join "." (split "." type) (split_nonempty _ _)) as [l [Hp [Hin Hj]]].
  exists l. split; [exact Hp |]. split.
  - pose proof (split_pieces "." type) as Hall. rewrite Forall_forall in Hall.
    now apply Hall.
  - rewrite join_split in Hj. exact Hj.
Qed.

Example typeLabel_ex :
  typeLabel "n8n-nodes-base.webhook" = Some "webhook"
  /\ typeLabel "@n8n/n8n-nodes-langchain.agent" = Some "agent"
  /\ typeLabel "webhook" = Some "webhook"
  /\ typeLabel "trailing." = Some ""
  /\ typeLabel "" = Some "".
Proof. repeat split; reflexivity. Qed.

(** X2.  The graph and the score do not test for triggers the same way:
    the badge test is case-sensitive, the scoring test lowers the type
    first.  Every node the graph paints as a trigger is a trigger for the
    score. *)
Theorem emerald_badge_is_trigger (n : Node.t) :
  badgeColor (Node.type n) = emerald -> isTrigger n = true.
Proof.
  unfold badgeColor, isTrigger. intros H.
  destruct (Js.includes (Node.type n) "trigger") eqn:Et.
  - apply includes_toLowerCase in Et.
    change (Js.toLowerCase "trigger") with "trigger" in Et. now rewrite Et.
  - destruct (Js.includes (Node.type n) "webhook") eqn:Ew.
    + apply includes_toLowerCase in Ew.
      change (Js.toLowerCase "webhook") with "webhook" in Ew.
      rewrite Ew. apply orb_true_r.
    + simpl in H.
      destruct (Js.includes (Node.type n) "google" || Js.includes (Node.type n) "ai");
        discriminate.
Qed.

Lemma emerald_badge_is_trigger_witness :
  isTrigger (node "Hook" "n8n-nodes-base.webhook") = true.
Proof.
  apply (emerald_badge_is_trigger (node "Hook" "n8n-nodes-base.webhook")). reflexivity.
Defined.

(** The converse fails: a trigger for the score that the graph paints
    slate. *)
Example trigger_without_emerald_badge :
  isTrigger (node "Cron" "n8n-nodes-base.scheduleTrigger") = true
  /\ badgeColor "n8n-nodes-base.scheduleTrigger" = slate.
Proof. split; reflexivity. Qed.

(** X3.  The scoring tests for [error], [trigger] and [webhook] accept
    the word in any letter case, wherever it stands in the type. *)
Theorem keyword_in_any_case (n : Node.t) (pre word post : string) :
  Node.type n = pre ++ word ++ post ->
  (Js.toLowerCase word = "error" -> isErrorNode n = true)
  /\ (Js.toLowerCase word = "trigger" \/ Js.toLowerCase word = "webhook" ->
      isTrigger n = true).
Proof.
  intros Ht.
  assert (Hl : Js.toLowerCase (Node.type n)
               = Js.toLowerCase pre ++ Js.toLowerCase word ++ Js.toLowerCase post)
    by now rewrite Ht, !toLowerCase_app.
  split.
  - intros Hw. unfold isErrorNode.
    assert (H : Js.includes (Js.toLowerCase (Node.type n)) "error" = true)
      by (apply includes_iff; rewrite Hl, Hw; eauto).
    now rewrite H.
  - intros Hw. unfold isTrigger. destruct Hw as [Hw | Hw].
    + assert (H : Js.includes (Js.toLowerCase (Node.type n)) "trigger" = true)
        by (apply includes_iff; rewrite Hl, Hw; eauto).
      now rewrite H.
    + assert (H : Js.includes (Js.toLowerCase (Node.type n)) "webhook" = true)
        by (apply includes_iff; rewrite Hl, Hw; eauto).
      rewrite H. apply orb_true_r.
Qed.

Lemma keyword_in_any_case_witness :
  isErrorNode (node "Guard" "n8n-nodes-base.ERRORHandler") = true
  /\ isTrigger (node "Hook" "n8n-nodes-base.WebHook") = true.
Proof.
  split.
  - apply (proj1 (keyword_in_any_case (node "Guard" "n8n-nodes-base.ERRORHandler")
                    "n8n-nodes-base." "ERROR" "Handler" eq_refl)).
    reflexivity.
  - apply (proj2 (keyword_in_any_case (node "Hook" "n8n-nodes-base.WebHook")
                    "n8n-nodes-base." "WebHook" "" eq_refl)).
    right. reflexivity.
Defined.

(* ===================================================================== *)
(** ** Rendering a document                                               *)
(* ===================================================================== *)

Lemma renderCard_typed (i : nat) (n : Rt.node) :
  Rt.type n <> None -> exists c, renderCard i n = Normal c.
Proof.
  intros H. unfold renderCard. destruct (Rt.type n) as [t|]; [| congruence].
  simpl. eauto.
Qed.

Lemma renderCard_untyped (i : nat) (n : Rt.node) :
  Rt.type n = None -> renderCard i n = Throw TypeError.
Proof. intros H. unfold renderCard. now rewrite H. Qed.

Lemma renderCard_cases (i : nat) (n : Rt.node) :
  renderCard i n = Throw TypeError \/ exists c, renderCard i n = Normal c.
Proof.
  destruct (Rt.type n) eqn:E.
  - right. apply renderCard_typed. congruence.
  - left. now apply renderCard_untyped.
Qed.

Lemma mapFrom_typed (i : nat) (a : list Rt.node) :
  (forall n, In n a -> Rt.type n <> None) ->
  exists cards, mapFrom i renderCard a = Normal cards
                /\ List.length cards = List.length a.
Proof.
  revert i. induction a as [|x a IH]; intros i H; simpl.
  - now exists [].
  - destruct (renderCard_typed i x (H x (or_introl eq_refl))) as [c ->].
    destruct (IH (S i)) as [cs [-> Hl]]; [intros n Hn; apply H; now right |].
    simpl. exists (c :: cs). split; [reflexivity | simpl; now rewrite Hl].
Qed.

Lemma mapFrom_untyped (i : nat) (a : list Rt.node) :
  (exists n, In n a /\ Rt.type n = None) ->
  mapFrom i renderCard a = Throw TypeError.
Proof.
  revert i. induction a as [|x a IH]; intros i [n [Hin Hn]]; [contradiction |].
  simpl. destruct Hin as [-> | Hin].
  - now rewrite (renderCard_untyped i n Hn).
  - destruct (renderCard_cases i x) as [-> | [c ->]]; [reflexivity |].
    simpl. rewrite (IH (S i)); [reflexivity | eauto].
Qed.

Lemma types_present_or_absent (a : list Rt.node) :
  (forall n, In n a -> Rt.type n <> None) \/ (exists n, In n a /\ Rt.type n = None).
Proof.
  induction a as [|x a [IH | [n [Hin Hn]]]].
  - left. intros n [].
  - destruct (Rt.type x) eqn:E.
    + left. intros n [<- | Hn]; [congruence | now apply IH].
    + right. exists x. split; [now left | exact E].
  - right. exists n. split; [now right | exact Hn].
Qed.

(** X4.  On the visual tab a loaded document renders as one card per node
    when every node has a [type], and rendering throws a [TypeError] as
    soon as one node has none; a missing [name] does not matter.  The raw
    view renders every document. *)
Theorem visual_graph_needs_types (st : State) (d : Rt.workflow) :
  workflow st = Some d ->
  (activeTab st = visual ->
   (forall n, In n (Rt.nodes d) -> Rt.type n <> None) ->
   exists cards, renderMain st = Normal (VisualGraph cards)
                 /\ List.length cards = List.length (Rt.nodes d))
  /\ (activeTab st = visual ->
      (exists n, In n (Rt.nodes d) /\ Rt.type n = None) ->
      renderMain st = Throw TypeError)
  /\ (activeTab st = json -> renderMain st = Normal (RawJson d)).
Proof.
  intros Hw. unfold renderMain. rewrite Hw. repeat split.
  - intros -> H. destruct (mapFrom_typed 0 (Rt.nodes d) H) as [cards [-> Hl]].
    simpl. eauto.
  - intros -> H. now rewrite (mapFrom_untyped 0 (Rt.nodes d) H).
  - intros ->. reflexivity.
Qed.

Lemma visual_graph_needs_types_witness :
  (exists cards, renderMain (loaded namelessDocument) = Normal (VisualGraph cards)
                 /\ List.length cards = List.length (Rt.nodes namelessDocument))
  /\ renderMain (loaded typelessDocument) = Throw TypeError
  /\ renderMain (setActiveTab json (loaded typelessDocument)) = Normal (RawJson typelessDocument).
Proof.
  split; [| split].
  - apply (proj1 (visual_graph_needs_types (loaded namelessDocument) namelessDocument eq_refl));
      [reflexivity |].
    intros n [<- | [<- | []]]; discriminate.
  - apply (proj1 (proj2 (visual_graph_needs_types (loaded typelessDocument)
                           typelessDocument eq_refl))); [reflexivity |].
    eexists. split; [right; left; reflexivity | reflexivity].
  - apply (proj2 (proj2 (visual_graph_needs_types (setActiveTab json (loaded typelessDocument))
                           typelessDocument eq_refl))).
    reflexivity.
Defined.

Lemma Rt_score_normal_fields (d : Rt.workflow) (z : Z) :
  Rt.score d = Normal z ->
  forall n, In n (Rt.nodes d) -> Rt.name n <> None /\ Rt.type n <> None.
Proof.
  intros Hz n Hin.
  destruct (Rt.name n) eqn:En, (Rt.type n) eqn:Et;
    try (split; discriminate);
    exfalso;
    assert (Hex : Exists (fun n => Rt.name n = None \/ Rt.type n = None) (Rt.nodes d))
      by (apply Exists_exists; exists n; split; [exact Hin | tauto]);
    rewrite (Rt_score_throws d Hex) in Hz; discriminate.
Qed.

(** X5.  Scoring completes normally exactly on the documents all of whose
    nodes have a [name] and a [type], and its result is then the score of
    the document read through the interfaces. *)
Theorem scoring_completes_iff_fields_present (d : Rt.workflow) (z : Z) :
  Rt.score d = Normal z
  <-> (forall n, In n (Rt.nodes d) -> Rt.name n <> None /\ Rt.type n <> None)
      /\ z = score (substituted d).
Proof.
  split.
  - intros Hz. pose proof (Rt_score_normal_fields d z Hz) as Hall.
    split; [exact Hall |]. rewrite (Rt_score_present d Hall) in Hz. congruence.
  - intros [Hall ->]. now apply Rt_score_present.
Qed.

Lemma scoring_completes_iff_fields_present_witness :
  Rt.score (Rt.ofWorkflow cleanWorkflow) = Normal 100.
Proof.
  apply (proj2 (scoring_completes_iff_fields_present (Rt.ofWorkflow cleanWorkflow) 100)).
  split; [| reflexivity].
  intros n [<- | [<- | []]]; split; discriminate.
Defined.

(** X6.  A document that can be scored can be shown: whenever the
    calculation completes normally, the left panel renders on either
    tab.  The converse fails for a node without [name]. *)
Theorem scorable_document_renders (st : State) (d : Rt.workflow) (z : Z) :
  workflow st = Some d ->
  Rt.score d = Normal z ->
  exists v, renderMain st = Normal v.
Proof.
  intros Hw Hz. pose proof (Rt_score_normal_fields d z Hz) as Hall.
  unfold renderMain. rewrite Hw. destruct (activeTab st).
  - destruct (mapFrom_typed 0 (Rt.nodes d)) as [cards [-> _]].
    + intros n Hin. now destruct (Hall n Hin).
    + simpl. eauto.
  - eauto.
Qed.

Lemma scorable_document_renders_witness :
  exists v, renderMain (loaded (Rt.ofWorkflow cleanWorkflow)) = Normal v.
Proof.
  apply (scorable_document_renders (loaded (Rt.ofWorkflow cleanWorkflow))
           (Rt.ofWorkflow cleanWorkflow) 100); reflexivity.
Defined.

Example nameless_document_renders_but_is_not_scored :
  (exists cards, renderMain (loaded namelessDocument) = Normal (VisualGraph cards))
  /\ Rt.score namelessDocument = Throw TypeError.
Proof. split; [eexists |]; reflexivity. Qed.

(* ===================================================================== *)
(** ** The handlers together                                              *)
(* ===================================================================== *)

(** Run without anything in between, the two phases of [handleAnalyze]
    are [handleAnalyze]. *)
Lemma handleAnalyze_phases (ai : Completion AIResponse) (st : State) :
  handleAnalyze ai st
  = match handleAnalyzeBegin st with
    | (st1, Some wf) => handleAnalyzeResume wf ai st1
    | (st1, None) => (st1, Normal tt)
    end.
Proof.
  unfold handleAnalyze, handleAnalyzeBegin, handleAnalyzeResume.
  destruct (workflow st); reflexivity.
Qed.

(** X7.  [handleAnalyze] resets the loading flag only on its normal path:
    with a workflow loaded, the Run Diagnostics button is enabled again
    after the handler exactly when it completed normally; after a
    rejected external call or a throwing calculation it stays disabled. *)
Theorem button_enabled_again_iff_normal
  (ai : Completion AIResponse) (st : State) (wf : Rt.workflow) :
  workflow st = Some wf ->
  analyzeDisabled (fst (handleAnalyze ai st)) = false
  <-> snd (handleAnalyze ai st) = Normal tt.
Proof.
  intros Hw. unfold handleAnalyze. rewrite Hw.
  destruct ai as [res | e]; cbn.
  - destruct (Rt.score wf) as [z | e]; cbn.
    + rewrite Hw. split; reflexivity.
    + split; discriminate.
  - split; discriminate.
Qed.

Lemma button_enabled_again_iff_normal_witness :
  analyzeDisabled (fst (handleAnalyze (Normal sampleResponse)
                          (loaded (Rt.ofWorkflow cleanWorkflow)))) = false.
Proof.
  apply (proj2 (button_enabled_again_iff_normal (Normal sampleResponse)
                  (loaded (Rt.ofWorkflow cleanWorkflow)) (Rt.ofWorkflow cleanWorkflow)
                  eq_refl)).
  reflexivity.
Defined.

Example button_stays_disabled_after_abort :
  analyzeDisabled (fst (handleAnalyze (Normal sampleResponse) (loaded namelessDocument))) = true
  /\ analyzeDisabled
       (fst (loadDemo lead (fst (handleAnalyze (Normal sampleResponse) (loaded namelessDocument)))))
     = false.
Proof. split; reflexivity. Qed.

(** X8.  Running [handleAnalyze] a second time with the same outcome of
    the external call changes nothing: the score is computed from the
    workflow alone and never builds on the score already shown. *)
Theorem handleAnalyze_twice (ai : Completion AIResponse) (st : State) :
  handleAnalyze ai (fst (handleAnalyze ai st)) = handleAnalyze ai st.
Proof.
  unfold handleAnalyze.
  destruct (workflow st) as [wf|] eqn:Hw; cbn; [| now rewrite Hw].
  destruct ai as [res | e]; cbn.
  - destruct (Rt.score wf) as [z | e] eqn:Hs; cbn; rewrite Hw; cbn; now rewrite Hs.
  - now rewrite Hw.
Qed.

(** X9.  The continuation of [handleAnalyze] scores the workflow it
    captured when it was started.  When a demo is loaded while the
    external call is pending, the component ends up showing the new
    document together with the score of the old one, with the loading
    flag reset. *)
Theorem stale_score_after_reload
  (st : State) (w1 : Workflow.t) (d2 : Rt.workflow) (type : DemoType) (res : AIResponse) :
  workflow st = Some (Rt.ofWorkflow w1) ->
  snd (handleAnalyzeBegin st) = Some (Rt.ofWorkflow w1)
  /\ run [AnalyzeClicked; LoadDemoClicked type; FetchResolved d2;
          AnalyzeResumed (Rt.ofWorkflow w1) (Normal res)] st
     = mkState (activeTab st) (Some d2) false
               (Some (mkAnalysis (res_text res) (orElse (res_model res) "AI Model")))
               (healthScoreOf w1).
Proof.
  intros Hw. unfold run, handleAnalyzeBegin. cbn [fold_left step].
  unfold handleAnalyzeBegin, handleAnalyzeResume. rewrite Hw, Rt_score_of. cbn.
  split; reflexivity.
Qed.

Lemma stale_score_after_reload_witness :
  run [AnalyzeClicked; LoadDemoClicked lead; FetchResolved (Rt.ofWorkflow cleanWorkflow);
       AnalyzeResumed (Rt.ofWorkflow neglectedWorkflow) (Normal sampleResponse)]
      (loaded (Rt.ofWorkflow neglectedWorkflow))
  = mkState visual (Some (Rt.ofWorkflow cleanWorkflow)) false
            (Some (mkAnalysis "- Add error handling node." "AI Model"))
            (healthScoreOf neglectedWorkflow).
Proof.
  apply (proj2 (stale_score_after_reload (loaded (Rt.ofWorkflow neglectedWorkflow))
                  neglectedWorkflow (Rt.ofWorkflow cleanWorkflow) lead sampleResponse
                  eq_refl)).
Defined.

Lemma step_healthScore (st : State) (e : Event) :
  0 <= healthScore st <= 100 -> 0 <= healthScore (step st e) <= 100.
Proof.
  intros H. destruct e as [data | t | type | | wf ai]; cbn; try exact H; try lia.
  - unfold handleAnalyzeBegin. destruct (workflow st); exact H.
  - unfold handleAnalyzeResume. destruct ai as [res | e]; [| exact H].
    destruct (Rt.score wf) as [z | e]; cbn; [lia | exact H].
Qed.

Lemma step_loading (st : State) (e : Event) :
  (loading st = true -> workflow st <> None) ->
  loading (step st e) = true -> workflow (step st e) <> None.
Proof.
  intros H. destruct e as [data | t | type | | wf ai]; cbn; try exact H; try discriminate.
  - unfold handleAnalyzeBegin. destruct (workflow st) eqn:Hw; cbn; [| now rewrite Hw].
    rewrite Hw. discriminate.
  - unfold handleAnalyzeResume. destruct ai as [res | e]; [| exact H].
    destruct (Rt.score wf) as [z | e]; cbn; [discriminate | exact H].
Qed.

(** X10.  Whatever the user does and whenever fetches and analyses
    complete, the health score the component holds stays between 0 and
    100, and the loading flag is only set while a workflow is loaded. *)
Theorem reachable_state_invariant (es : list Event) :
  0 <= healthScore (run es initial) <= 100
  /\ (loading (run es initial) = true -> workflow (run es initial) <> None).
Proof.
  unfold run.
  assert (H : forall st,
             (0 <= healthScore st <= 100 /\ (loading st = true -> workflow st <> None)) ->
             0 <= healthScore (fold_left step es st) <= 100
             /\ (loading (fold_left step es st) = true ->
                 workflow (fold_left step es st) <> None)).
  { induction es as [|e es IH]; intros st Hst; [exact Hst |].
    cbn [fold_left]. apply IH. destruct Hst as [Hs Hl]. split.
    - now apply step_healthScore.
    - now apply step_loading. }
  apply H. split; [cbn; lia | discriminate].
Qed.

(* ===================================================================== *)
(** ** More about the score                                               *)
(* ===================================================================== *)




Lemma existsb_Permutation {A : Type} (p : A -> bool) (a b : list A) :
  Permutation a b -> existsb p a = existsb p b.
Proof.
  induction 1 as [| x a b _ IH | x y a | a b c _ IH1 _ IH2]; simpl.
  - reflexivity.
  - now rewrite IH.
  - destruct (p x), (p y); reflexivity.
  - now rewrite IH1.
Qed.

Lemma len_filter_Permutation {A : Type} (p : A -> bool) (a b : list A) :
  Permutation a b -> len (filter p a) = len (filter p b).
Proof.
  induction 1 as [| x a b _ IH | x y a | a b c _ IH1 _ IH2]; simpl.
  - reflexivity.
  - destruct (p x); rewrite ?len_cons; now rewrite IH.
  - destruct (p x), (p y); rewrite ?len_cons; reflexivity.
  - now rewrite IH1.
Qed.

(** X12.  The order of the nodes does not matter: two workflows whose
    node sequences are permutations of each other have the same score. *)
Theorem score_of_permuted_nodes (w1 w2 : Workflow.t) :
  Permutation (Workflow.nodes w1) (Workflow.nodes w2) ->
  score w1 = score w2 /\ healthScoreOf w1 = healthScoreOf w2.
Proof.
  intros H.
  assert (Hs : score w1 = score w2).
  { unfold score. cbv zeta.
    rewrite (existsb_Permutation isErrorNode _ _ H).
    rewrite (len_filter_Permutation isTrigger _ _ H).
    rewrite (len_filter_Permutation isHeavy _ _ H).
    rewrite (len_filter_Permutation isDefaultNamed _ _ H).
    unfold len. now rewrite (Permutation_length H). }
  split; [exact Hs |]. unfold healthScoreOf. now rewrite Hs.
Qed.

Lemma score_of_permuted_nodes_witness :
  score (wf (rev (Workflow.nodes catchWorkflow))) = score catchWorkflow
  /\ healthScoreOf (wf (rev (Workflow.nodes catchWorkflow))) = healthScoreOf catchWorkflow.
Proof.
  apply (score_of_permuted_nodes (wf (rev (Workflow.nodes catchWorkflow))) catchWorkflow).
  apply Permutation_sym. apply Permutation_rev.
Defined.

(** X13.  A score of 100 means that no rule fired, and conversely. *)
Theorem perfect_score_iff_no_rule (w : Workflow.t) :
  healthScoreOf w = 100 <-> triggered w = [].
Proof.
  split.
  - intros H.
    assert (Hs : 0 <= sumDeltas (triggered w))
      by (unfold healthScoreOf in H; rewrite score_sumDeltas in H; lia).
    revert Hs. unfold triggered, when. cbv zeta.
    split_ifs; zbool; cbn [app sumDeltas fold_right delta]; intros Hs;
      try reflexivity; exfalso; lia.
  - intros H. unfold healthScoreOf. rewrite score_sumDeltas, H. reflexivity.
Qed.

Lemma perfect_score_iff_no_rule_witness : healthScoreOf cleanWorkflow = 100.
Proof. apply (proj2 (perfect_score_iff_no_rule cleanWorkflow)). reflexivity. Defined.

(** Twenty-five default-named code nodes without trigger and error
    handling. *)
Example twenty_five_default_names_reach_zero :
  let w := wf (repeat (node "Node 7" "n8n-nodes-base.Code") 25) in
  defaultCount w = 25 /\ score w = 0 /\ healthScoreOf w = 0.
Proof. cbv zeta. repeat split; vm_compute; reflexivity. Qed.

(** X14.  A score of 0 takes at least twenty-five default-named nodes:
    the other rules cannot take off more than 50 points. *)
Theorem zero_score_needs_default_names (w : Workflow.t) :
  healthScoreOf w = 0 -> 25 <= defaultCount w /\ 25 <= len (Workflow.nodes w).
Proof.
  intros H. pose proof (fixedPenalty_bounds w) as Hb.
  assert (Hc : 25 <= defaultCount w)
    by (unfold healthScoreOf in H; rewrite score_split in H; lia).
  split; [exact Hc |].
  assert (Hle : forall a : list Node.t, len (filter isDefaultNamed a) <= len a).
  { induction a as [|x a IH]; simpl; [lia |].
    destruct (isDefaultNamed x); rewrite ?len_cons; lia. }
  unfold defaultCount in Hc. specialize (Hle (Workflow.nodes w)). lia.
Qed.

Lemma zero_score_needs_default_names_witness :
  25 <= defaultCount neglectedWorkflow /\ 25 <= len (Workflow.nodes neglectedWorkflow).
Proof. apply (zero_score_needs_default_names neglectedWorkflow). reflexivity. Defined.

(* ===================================================================== *)
(** ** The prompt                                                         *)
(* ===================================================================== *)

(** What [JSON.stringify] writes for a code unit reads back as that
    unit. *)
Lemma unquote_quoteChar (c : ascii) (r : string) :
  unquoteBody (quoteChar c ++ r) = consTo c (unquoteBody r).
Proof.
  destruct c as [b0 b1 b2 b3 b4 b5 b6 b7].
  destruct b0, b1, b2, b3, b4, b5, b6, b7; reflexivity.
Qed.

Lemma unquote_quoteBody (s rest : string) :
  unquoteBody (quoteBody s ++ String dq rest) = Some (s, rest).
Proof.
  induction s as [|c s IH]; [reflexivity |].
  cbn [quoteBody]. now rewrite append_assoc, unquote_quoteChar, IH.
Qed.

Lemma parseString_quoteJSON (s rest : string) :
  parseString (quoteJSON s ++ rest) = Some (s, rest).
Proof.
  unfold quoteJSON. cbn [append parseString].
  change (Ascii.eqb dq dq) with true. cbv iota.
  rewrite append_assoc. apply unquote_quoteBody.
Qed.

Lemma expect_app (p r : string) : expect p (p ++ r) = Some r.
Proof.
  unfold expect.
  assert (H : Js.startsWith (p ++ r) p = true) by (apply startsWith_iff; now exists r).
  rewrite H. f_equal. clear H. induction p as [|c p IH]; [reflexivity | exact IH].
Qed.

Lemma expect_other (a b : ascii) (p r : string) :
  Ascii.eqb a b = false -> expect (String a p) (String b r) = None.
Proof. intros H. unfold expect. cbn [Js.startsWith]. now rewrite H. Qed.

Lemma expect_end (a : ascii) (p : string) : expect (String a p) "" = None.
Proof. reflexivity. Qed.

Lemma expect_none (p s : string) : Js.startsWith s p = false -> expect p s = None.
Proof. intros H. unfold expect. now rewrite H. Qed.

(** The four shapes of an object written by [stringifyNode]. *)
Lemma stringifyNode_both (nm ty : string) (pos : option (Z * Z)) (rest : string) :
  stringifyNode (Rt.mkNode (Some nm) (Some ty) pos) ++ rest
  = "{" ++ (quoteJSON "name" ++ ":") ++ quoteJSON nm
        ++ ("," ++ quoteJSON "type" ++ ":") ++ quoteJSON ty ++ "}" ++ rest.
Proof.
  unfold stringifyNode, property. cbn [Rt.name Rt.type app join].
  now rewrite !append_assoc.
Qed.

Lemma stringifyNode_name (nm : string) (pos : option (Z * Z)) (rest : string) :
  stringifyNode (Rt.mkNode (Some nm) None pos) ++ rest
  = "{" ++ (quoteJSON "name" ++ ":") ++ quoteJSON nm ++ "}" ++ rest.
Proof.
  unfold stringifyNode, property. cbn [Rt.name Rt.type app join].
  now rewrite !append_assoc.
Qed.

Lemma stringifyNode_type (ty : string) (pos : option (Z * Z)) (rest : string) :
  stringifyNode (Rt.mkNode None (Some ty) pos) ++ rest
  = "{" ++ (quoteJSON "type" ++ ":") ++ quoteJSON ty ++ "}" ++ rest.
Proof.
  unfold stringifyNode, property. cbn [Rt.name Rt.type app join].
  now rewrite !append_assoc.
Qed.

Lemma stringifyNode_none (pos : option (Z * Z)) (rest : string) :
  stringifyNode (Rt.mkNode None None pos) ++ rest = "{" ++ "}" ++ rest.
Proof. reflexivity. Qed.

(** An object written by [stringifyNode] reads back as the fields of the
    node. *)
Lemma parseNode_stringifyNode (n : Rt.node) (rest : string) :
  exists s1, expect "{" (stringifyNode n ++ rest) = Some s1
             /\ parseNode s1 = Some (fields n, rest).
Proof.
  destruct n as [[nm|] [ty|] pos]; unfold fields; cbn [Rt.name Rt.type].
  - rewrite stringifyNode_both. eexists. split; [apply expect_app |].
    unfold parseNode.
    rewrite (expect_none "}") by reflexivity.
    rewrite expect_app, parseString_quoteJSON.
    rewrite (expect_none "}") by reflexivity.
    rewrite expect_app, parseString_quoteJSON, expect_app. reflexivity.
  - rewrite stringifyNode_name. eexists. split; [apply expect_app |].
    unfold parseNode.
    rewrite (expect_none "}") by reflexivity.
    rewrite expect_app, parseString_quoteJSON, expect_app. reflexivity.
  - rewrite stringifyNode_type. eexists. split; [apply expect_app |].
    unfold parseNode.
    rewrite (expect_none "}") by reflexivity.
    rewrite (expect_none (quoteJSON "name" ++ ":")) by reflexivity.
    rewrite expect_app, parseString_quoteJSON, expect_app. reflexivity.
  - rewrite stringifyNode_none. eexists. split; [apply expect_app |].
    unfold parseNode. rewrite expect_app. reflexivity.
Qed.

Lemma stringifyNode_head (n : Rt.node) (rest : string) :
  exists r, stringifyNode n ++ rest = String "{" r.
Proof. unfold stringifyNode. simpl. eauto. Qed.

(** The elements of an array written by [stringifyNodes] read back as the
    fields of the nodes. *)
Lemma parseElems_stringify (a : list Rt.node) (x : Rt.node) (fuel : nat) (rest : string) :
  (List.length a < fuel)%nat ->
  parseElems fuel (join "," (map stringifyNode (x :: a)) ++ "]" ++ rest)
  = Some (map fields (x :: a), rest).
Proof.
  revert x fuel. induction a as [|y a IH]; intros x fuel Hf.
  - destruct fuel as [|f]; [inversion Hf |].
    cbn [map join parseElems].
    destruct (parseNode_stringifyNode x ("]" ++ rest)) as [s1 [-> ->]].
    now rewrite (expect_app "]").
  - destruct fuel as [|f]; [inversion Hf |].
    cbn [map]. rewrite join_cons, !append_assoc. cbn [parseElems].
    destruct (parseNode_stringifyNode x
                ("," ++ join "," (stringifyNode y :: map stringifyNode a) ++ "]" ++ rest))
      as [s1 [-> ->]].
    rewrite (expect_none "]") by reflexivity.
    rewrite (expect_app ",").
    change (stringifyNode y :: map stringifyNode a) with (map stringifyNode (y :: a)).
    rewrite IH by (simpl in Hf; lia). reflexivity.
Qed.

Lemma parseNodes_stringify (a : list Rt.node) (fuel : nat) (rest : string) :
  (List.length a <= fuel)%nat ->
  parseNodes fuel (stringifyNodes a ++ rest) = Some (map fields a, rest).
Proof.
  intros Hf. unfold parseNodes, stringifyNodes. rewrite !append_assoc.
  rewrite (expect_app "[").
  destruct a as [|x a].
  - reflexivity.
  - destruct (stringifyNode_head x
                (match a with
                 | [] => "]" ++ rest
                 | _ :: _ => "," ++ join "," (map stringifyNode a) ++ "]" ++ rest
                 end)) as [r Hr].
    assert (E : join "," (map stringifyNode (x :: a)) ++ "]" ++ rest = String "{" r).
    { rewrite <- Hr. destruct a as [|y a]; [reflexivity |].
      cbn [map]. now rewrite join_cons, !append_assoc. }
    rewrite (expect_none "]") by (rewrite E; reflexivity).
    apply parseElems_stringify. simpl in Hf. lia.
Qed.

Lemma append_cancel (p a b : string) : p ++ a = p ++ b -> a = b.
Proof.
  induction p as [|c p IH]; simpl; intros H; [exact H |].
  injection H as H. now apply IH.
Qed.

Lemma stringifyNode_fields (n m : Rt.node) :
  fields n = fields m -> stringifyNode n = stringifyNode m.
Proof.
  unfold fields, stringifyNode. intros H. injection H as -> ->. reflexivity.
Qed.

Lemma map_stringifyNode_fields (a b : list Rt.node) :
  map fields a = map fields b -> map stringifyNode a = map stringifyNode b.
Proof.
  revert b. induction a as [|x a IH]; intros [|y b] H; try discriminate; [reflexivity |].
  cbn [map] in *. injection H as Hn Ht Hr.
  rewrite (stringifyNode_fields x y) by (unfold fields; congruence).
  now rewrite (IH b Hr).
Qed.

(** X15.  The prompt sent to the external generator carries exactly the
    names and types of the nodes: two documents give the same prompt if
    and only if their node sequences agree on every [name] and [type],
    absent ones included.  Quotes, backslashes or braces inside a name
    cannot make one node sequence pass for another. *)
Theorem prompt_carries_names_and_types (d1 d2 : Rt.workflow) :
  prompt d1 = prompt d2
  <-> map fields (Rt.nodes d1) = map fields (Rt.nodes d2).
Proof.
  split.
  - unfold prompt. intros H. apply append_cancel in H.
    pose proof (parseNodes_stringify (Rt.nodes d1)
                  (List.length (Rt.nodes d1) + List.length (Rt.nodes d2)) promptTail) as H1.
    pose proof (parseNodes_stringify (Rt.nodes d2)
                  (List.length (Rt.nodes d1) + List.length (Rt.nodes d2)) promptTail) as H2.
    rewrite H in H1. rewrite H2 in H1 by lia.
    specialize (H1 ltac:(lia)). congruence.
  - intros H. unfold prompt, stringifyNodes.
    now rewrite (map_stringifyNode_fields _ _ H).
Qed.

Lemma prompt_carries_names_and_types_witness :
  prompt (Rt.ofWorkflow wiredWorkflow) = prompt (Rt.ofWorkflow unwiredWorkflow).
Proof.
  apply (proj2 (prompt_carries_names_and_types (Rt.ofWorkflow wiredWorkflow)
                  (Rt.ofWorkflow unwiredWorkflow))).
  reflexivity.
Defined.

Example prompt_of_quoting_document :
  parseNodes 4 (stringifyNodes (Rt.nodes quotingDocument) ++ promptTail)
  = Some (map fields (Rt.nodes quotingDocument), promptTail).
Proof. vm_compute. reflexivity. Qed.

(* ===================================================================== *)
(** ** Loading a demo, drawing the graph                                  *)
(* ===================================================================== *)

(** X16.  Loading a demo erases every trace of an earlier analysis,
    whatever its outcome: the loading flag, the analysis and the score
    are the only cells [handleAnalyze] writes, and [loadDemo] resets all
    three. *)
Theorem loadDemo_erases_analysis
  (type : DemoType) (ai : Completion AIResponse) (st : State) :
  loadDemo type (fst (handleAnalyze ai st)) = loadDemo type st.
Proof.
  unfold handleAnalyze, loadDemo.
  destruct (workflow st) as [wf|]; [| reflexivity].
  destruct ai as [res | e]; [| reflexivity].
  destruct (Rt.score wf) as [z | e]; reflexivity.
Qed.

Lemma mapFrom_renderCard_shape (i : nat) (a : list Rt.node) (cards : list Card) :
  mapFrom i renderCard a = Normal cards ->
  map connector cards = map (Nat.ltb 0) (seq i (List.length a))
  /\ map title cards = map Rt.name a.
Proof.
  revert i cards. induction a as [|x a IH]; intros i cards H; simpl in H.
  - injection H as <-. split; reflexivity.
  - unfold renderCard in H at 1. destruct (Rt.type x) as [t|]; [| discriminate].
    simpl in H. destruct (mapFrom (S i) renderCard a) as [cs | e] eqn:E; [| discriminate].
    simpl in H. injection H as <-.
    destruct (IH (S i) cs E) as [Hc Ht]. simpl. now rewrite Hc, Ht.
Qed.

Lemma ltb_seq_succ (i n : nat) :
  map (Nat.ltb 0) (seq (S i) n) = map (fun _ => true) (seq (S i) n).
Proof.
  apply map_ext_in. intros k Hk. apply in_seq in Hk.
  apply Nat.ltb_lt. lia.
Qed.

(** X17.  The graph view never reads [connections]: whenever it renders,
    it shows the nodes in document order, titled with their names, the
    first card without a connection line and every later card with one,
    so every workflow is drawn as a single chain. *)
Theorem visual_graph_is_a_chain (st : State) (d : Rt.workflow) (cards : list Card) :
  workflow st = Some d ->
  activeTab st = visual ->
  renderMain st = Normal (VisualGraph cards) ->
  map title cards = map Rt.name (Rt.nodes d)
  /\ map connector cards
     = match Rt.nodes d with
       | [] => []
       | _ :: r => false :: map (fun _ => true) r
       end.
Proof.
  intros Hw Ht H. unfold renderMain in H. rewrite Hw, Ht in H.
  destruct (mapFrom 0 renderCard (Rt.nodes d)) as [cs | e] eqn:E; [| discriminate].
  simpl in H. injection H as <-.
  destruct (mapFrom_renderCard_shape 0 (Rt.nodes d) cs E) as [Hc Hn].
  split; [exact Hn |]. rewrite Hc.
  destruct (Rt.nodes d) as [|x r]; [reflexivity |].
  cbn [List.length seq map]. rewrite ltb_seq_succ. f_equal.
  clear. generalize 1%nat. induction r as [|y r IH]; intros k; [reflexivity |].
  cbn [List.length seq map]. now rewrite IH.
Qed.

Lemma visual_graph_is_a_chain_witness :
  map title [mkCard false emerald (Some "Hook") (Some "webhook");
             mkCard true slate (Some "Classify") (Some "Code")]
  = map Rt.name (Rt.nodes (Rt.ofWorkflow wiredWorkflow))
  /\ map connector [mkCard false emerald (Some "Hook") (Some "webhook");
                    mkCard true slate (Some "Classify") (Some "Code")]
     = match Rt.nodes (Rt.ofWorkflow wiredWorkflow) with
       | [] => []
       | _ :: r => false :: map (fun _ => true) r
       end.
Proof.
  apply (visual_graph_is_a_chain (loaded (Rt.ofWorkflow wiredWorkflow))
           (Rt.ofWorkflow wiredWorkflow)); reflexivity.
Defined.

(** The state the claims start from, [loaded], is the initial state once
    the fetch issued on mount has resolved; the Load Email Classifier
    button fetches the same address again. *)
Lemma loaded_after_mount (d : Rt.workflow) : run [FetchResolved d] initial = loaded d.
Proof. reflexivity. Qed.

Example loadDemo_email_is_the_mount_document (st : State) :
  snd (loadDemo email st) = mountUrl
  /\ snd (loadDemo lead st) = "/demo-workflows/lead-enrichment.json".
Proof. split; reflexivity. Qed.
